(** * Ride booking and payment reconciliation: the handlers of [server/server.js]

    The development embeds the Express handlers of [server/server.js] and the
    tables of the SQL schema they write to.  A handler is a program in a small
    resumption monad: every [await] of the source is one atomic action on the
    world (the data store plus the error console), an exception unwinds to the
    enclosing [try]/[catch], and nothing is rolled back when it does, exactly
    as in the source, which uses no transaction.

    Identifiers ([uuid] columns) are natural numbers handed out by a counter
    of the store; text columns are strings; [integer] columns are [Z]. *)

From Stdlib Require Import String Ascii List ZArith QArith Qround Bool Arith Lia.
From Stdlib Require Import DecimalString Permutation.
Import ListNotations.

Local Close Scope Q_scope.
Local Open Scope list_scope.
Local Open Scope string_scope.

(* ================================================================== *)
(** * JavaScript values used by the handlers *)
(* ================================================================== *)

Definition uuid := nat.

(** A [jsonb] cell: the handlers only ever store flat objects, a list of
    keys with a number or a string each. *)
Inductive jsval : Type :=
| JNull
| JNum (z : Z)
| JStr (s : string).

Definition jsonb := list (string * jsval).

(** [a || b] on a possibly absent number: [undefined], [null] and [0] are
    falsy. *)
Definition num_or (a : option Z) (b : Z) : Z :=
  match a with
  | Some z => if (z =? 0)%Z then b else z
  | None => b
  end.

(** [!x] on a possibly absent number. *)
Definition falsy_num (a : option Z) : bool :=
  match a with
  | Some z => (z =? 0)%Z
  | None => true
  end.

(** [!x] on a possibly absent string: the empty string is falsy. *)
Definition falsy_str (a : option string) : bool :=
  match a with
  | Some s => String.eqb s ""
  | None => true
  end.

(** [!x] on a possibly absent identifier. *)
Definition falsy_id (a : option uuid) : bool :=
  match a with
  | Some _ => false
  | None => true
  end.

(** [String.prototype.charAt]: the empty string outside the range. *)
Definition charAt (s : string) (pos : Z) : string :=
  if (pos <? 0)%Z then ""
  else match String.get (Z.to_nat pos) s with
       | Some c => String c EmptyString
       | None => ""
       end.

(** [Math.floor] of the exact product; a draw of [Math.random] is a double,
    hence a rational. *)
Definition Math_floor (q : Q) : Z := Qfloor q.

(* ================================================================== *)
(** * The code generator *)
(* ================================================================== *)

Definition chars : string := "ABCDEFGHIJKLMNOPQRSTUVWXYZ0123456789".

(** The body of the [for] loop of [generateRideCode], run for the
    [fuel] iterations that remain from index [i] on.  [Math_random k] is the
    [k]-th draw of the call. *)
Fixpoint generateRideCode_loop (Math_random : nat -> Q)
         (fuel i : nat) (code : string) : string :=
  match fuel with
  | O => code
  | S fuel' =>
      let code' :=
        code ++ charAt chars
          (Math_floor (Math_random i * inject_Z (Z.of_nat (String.length chars)))%Q) in
      generateRideCode_loop Math_random fuel' (S i) code'
  end.

(** [generateRideCode(length = 6)] (server.js, lines 39-46); every call
    site passes the length. *)
Definition generateRideCode (Math_random : nat -> Q) (length : nat) : string :=
  generateRideCode_loop Math_random length 0 "".

(** Membership in the alphabet: uppercase letters and digits. *)
Definition in_alphabet (c : ascii) : bool :=
  let n := nat_of_ascii c in
  ((65 <=? n)%nat && (n <=? 90)%nat) || ((48 <=? n)%nat && (n <=? 57)%nat).

Fixpoint string_forallb (f : ascii -> bool) (s : string) : bool :=
  match s with
  | EmptyString => true
  | String c s' => f c && string_forallb f s'
  end.

(* ================================================================== *)
(** * The tables of the schema *)
(* ================================================================== *)

Module Ride.
Record row : Type := mk {
  id : uuid;
  created_by : uuid;
  title : string;
  origin : string;
  destination : string;
  departure_time : string;
  total_seats : Z;
  seats_left : Z;
  price_per_seat : Z;
  ride_code : string;
  status : string
}.

(** [update({ seats_left: v })] on one row. *)
Definition set_seats_left (v : Z) (r : row) : row :=
  mk (id r) (created_by r) (title r) (origin r) (destination r)
     (departure_time r) (total_seats r) v (price_per_seat r)
     (ride_code r) (status r).
End Ride.

Module Participant.
Record row : Type := mk {
  id : uuid;
  ride_id : uuid;
  user_id : uuid;
  join_code : string;
  amount_due : option Z;
  amount_paid : Z;
  paid : bool;
  stripe_session_id : option string;
  payment_intent_id : option string
}.

(** [update({ paid: true, stripe_session_id, amount_paid })] on one row. *)
Definition set_paid (session : string) (amount : Z) (p : row) : row :=
  mk (id p) (ride_id p) (user_id p) (join_code p) (amount_due p)
     amount true (Some session) (payment_intent_id p).
End Participant.

Module Payment.
Record row : Type := mk {
  id : uuid;
  user_id : uuid;
  ride_id : uuid;
  amount : Z;
  currency : string;
  stripe_session_id : string;
  stripe_payment_intent_id : option string;
  status : string;
  metadata : jsonb
}.

(** [update({ status: "completed", stripe_payment_intent_id })]. *)
Definition set_completed (intent : option string) (p : row) : row :=
  mk (id p) (user_id p) (ride_id p) (amount p) (currency p)
     (stripe_session_id p) intent "completed" (metadata p).

(** [update({ status: "failed" })]. *)
Definition set_failed (p : row) : row :=
  mk (id p) (user_id p) (ride_id p) (amount p) (currency p)
     (stripe_session_id p) (stripe_payment_intent_id p) "failed" (metadata p).
End Payment.

Module RideCode.
Record row : Type := mk {
  id : uuid;
  ride_id : uuid;
  code : string
}.

Definition set_code (c : string) (r : row) : row := mk (id r) (ride_id r) c.
End RideCode.

Module Notification.
Record row : Type := mk {
  id : uuid;
  user_id : option uuid;
  type : string;
  title : string;
  body : string;
  ride_id : option uuid;
  meta : option jsonb;
  read : bool
}.
End Notification.

Module HistoryEntry.
Record row : Type := mk {
  id : uuid;
  user_id : option uuid;
  ride_id : option uuid;
  action : string;
  meta : option jsonb
}.
End HistoryEntry.

(** The data store: one list of rows per table, the identities known to
    [auth.users], and the supply of fresh [uuid]s. *)
Record Store : Type := mkStore {
  auth_users : list uuid;
  rides : list Ride.row;
  ride_participants : list Participant.row;
  payments : list Payment.row;
  ride_codes : list RideCode.row;
  notifications : list Notification.row;
  history : list HistoryEntry.row;
  next_uuid : uuid
}.

Definition with_rides (l : list Ride.row) (s : Store) : Store :=
  mkStore (auth_users s) l (ride_participants s) (payments s) (ride_codes s)
          (notifications s) (history s) (next_uuid s).

Definition with_ride_participants (l : list Participant.row) (s : Store) : Store :=
  mkStore (auth_users s) (rides s) l (payments s) (ride_codes s)
          (notifications s) (history s) (next_uuid s).

Definition with_payments (l : list Payment.row) (s : Store) : Store :=
  mkStore (auth_users s) (rides s) (ride_participants s) l (ride_codes s)
          (notifications s) (history s) (next_uuid s).

Definition with_ride_codes (l : list RideCode.row) (s : Store) : Store :=
  mkStore (auth_users s) (rides s) (ride_participants s) (payments s) l
          (notifications s) (history s) (next_uuid s).

Definition with_notifications (l : list Notification.row) (s : Store) : Store :=
  mkStore (auth_users s) (rides s) (ride_participants s) (payments s)
          (ride_codes s) l (history s) (next_uuid s).

Definition with_history (l : list HistoryEntry.row) (s : Store) : Store :=
  mkStore (auth_users s) (rides s) (ride_participants s) (payments s)
          (ride_codes s) (notifications s) l (next_uuid s).

(** [gen_random_uuid()]: the column default of every [id]. *)
Definition bump_uuid (s : Store) : Store :=
  mkStore (auth_users s) (rides s) (ride_participants s) (payments s)
          (ride_codes s) (notifications s) (history s) (S (next_uuid s)).

(* ================================================================== *)
(** * Statements against the store *)
(* ================================================================== *)

(** Each definition below is one call chain of the store client as the
    handlers write it.  A statement on a ride, participant, payment or code
    table is refused when it breaks a key constraint of the schema
    ([UNIQUE], [REFERENCES], [NOT NULL]); the appends to the two audit tables
    take their outcome as an argument, so that the handlers can be run
    against an audit trail that fails.

    The columns are typed as the schema types them up to their range: an
    [integer] column is a [Z] and a [timestamptz] column the text the
    request carried.  The store also refuses a number that does not fit
    the 32-bit [integer] column and a text that is not a timestamp; the
    statements below do not decide that, and a property that asserts a
    stored row takes [in_int4] of the numbers and [timestamp_text] of the
    departure time as hypotheses. *)

(** The range of an [integer] column. *)
Definition in_int4 (z : Z) : bool :=
  (-2147483648 <=? z)%Z && (z <=? 2147483647)%Z.





(** The [error] member of a store reply. *)
Inductive PgError : Type :=
| unique_violation (constraint : string)
| foreign_key_violation (constraint : string)
| not_null_violation (column : string)
| not_a_single_row.

(** A store reply [{ data, error }]. *)
Definition reply (A : Type) : Type := (PgError + A)%type.

Definition mem_uuid (x : uuid) (l : list uuid) : bool := existsb (Nat.eqb x) l.

Definition eq_opt_uuid (column : uuid) (value : option uuid) : bool :=
  match value with
  | Some v => Nat.eqb column v
  | None => false
  end.

(** [.single()]: the row when the filter keeps exactly one, an error
    otherwise. *)
Definition single {A : Type} (l : list A) : reply A :=
  match l with
  | [x] => inr x
  | _ => inl not_a_single_row
  end.

Definition ride_exists (rideId : uuid) (s : Store) : bool :=
  existsb (fun r => Nat.eqb (Ride.id r) rideId) (rides s).

(** [from("rides").select("*").eq("id", rideId).single()] *)
Definition rides_select_single (rideId : option uuid) (s : Store)
  : reply Ride.row :=
  single (filter (fun r => eq_opt_uuid (Ride.id r) rideId) (rides s)).

(** [from("rides").insert({...}).select()], under [ride_code text UNIQUE]
    and the reference of [created_by] to [auth.users]. *)
Definition rides_insert (created_by : uuid) (title origin destination
    departure_time : string) (total_seats seats_left price_per_seat : Z)
    (ride_code status : string) (s : Store) : Store * reply (list Ride.row) :=
  if negb (mem_uuid created_by (auth_users s)) then
    (s, inl (foreign_key_violation "rides_created_by_fkey"))
  else if existsb (fun r => String.eqb (Ride.ride_code r) ride_code) (rides s) then
    (s, inl (unique_violation "rides_ride_code_key"))
  else
    let r := Ride.mk (next_uuid s) created_by title origin destination
                     departure_time total_seats seats_left price_per_seat
                     ride_code status in
    (bump_uuid (with_rides (rides s ++ [r])%list s), inr [r]).

(** [from("rides").update({ seats_left }).eq("id", rideId)] *)
Definition rides_update_seats_left (v : Z) (rideId : uuid) (s : Store)
  : Store * reply unit :=
  (with_rides
     (map (fun r => if Nat.eqb (Ride.id r) rideId
                    then Ride.set_seats_left v r else r) (rides s)) s,
   inr tt).

(** [from("ride_participants").select("*").eq("ride_id", rideId)
      .eq("user_id", userId).single()] *)
Definition participants_select_single (rideId userId : option uuid)
    (s : Store) : reply Participant.row :=
  single (filter (fun p => eq_opt_uuid (Participant.ride_id p) rideId
                           && eq_opt_uuid (Participant.user_id p) userId)
                 (ride_participants s)).

(** [from("ride_participants").insert({...}).select()], under
    [UNIQUE(ride_id, user_id)] and the two references. *)
Definition participants_insert (ride_id user_id : uuid) (join_code : string)
    (amount_due : Z) (paid : bool) (s : Store)
  : Store * reply (list Participant.row) :=
  if negb (ride_exists ride_id s) then
    (s, inl (foreign_key_violation "ride_participants_ride_id_fkey"))
  else if negb (mem_uuid user_id (auth_users s)) then
    (s, inl (foreign_key_violation "ride_participants_user_id_fkey"))
  else if existsb (fun p => Nat.eqb (Participant.ride_id p) ride_id
                            && Nat.eqb (Participant.user_id p) user_id)
                  (ride_participants s) then
    (s, inl (unique_violation "ride_participants_ride_id_user_id_key"))
  else
    let p := Participant.mk (next_uuid s) ride_id user_id join_code
                            (Some amount_due) 0%Z paid None None in
    (bump_uuid (with_ride_participants (ride_participants s ++ [p])%list s),
     inr [p]).

(** [from("ride_participants").update({ paid: true, stripe_session_id,
      amount_paid }).eq("id", id)] *)
Definition participants_update_paid (session : string) (amount : Z)
    (id : uuid) (s : Store) : Store * reply unit :=
  (with_ride_participants
     (map (fun p => if Nat.eqb (Participant.id p) id
                    then Participant.set_paid session amount p else p)
          (ride_participants s)) s,
   inr tt).

(** [from("payments").insert({...})], under [stripe_session_id text UNIQUE]
    and the two references. *)
Definition payments_insert (user_id ride_id : uuid) (amount : Z)
    (currency stripe_session_id status : string) (metadata : jsonb)
    (s : Store) : Store * reply unit :=
  if negb (mem_uuid user_id (auth_users s)) then
    (s, inl (foreign_key_violation "payments_user_id_fkey"))
  else if negb (ride_exists ride_id s) then
    (s, inl (foreign_key_violation "payments_ride_id_fkey"))
  else if existsb (fun p => String.eqb (Payment.stripe_session_id p)
                                       stripe_session_id) (payments s) then
    (s, inl (unique_violation "payments_stripe_session_id_key"))
  else
    let p := Payment.mk (next_uuid s) user_id ride_id amount currency
                        stripe_session_id None status metadata in
    (bump_uuid (with_payments (payments s ++ [p])%list s), inr tt).

(** [from("payments").update({ status: "completed",
      stripe_payment_intent_id }).eq("stripe_session_id", session)] *)
Definition payments_update_completed (intent : option string)
    (session : string) (s : Store) : Store * reply unit :=
  (with_payments
     (map (fun p => if String.eqb (Payment.stripe_session_id p) session
                    then Payment.set_completed intent p else p)
          (payments s)) s,
   inr tt).

(** [from("payments").update({ status: "failed" })
      .eq("stripe_session_id", session)] *)
Definition payments_update_failed (session : string) (s : Store)
  : Store * reply unit :=
  (with_payments
     (map (fun p => if String.eqb (Payment.stripe_session_id p) session
                    then Payment.set_failed p else p)
          (payments s)) s,
   inr tt).

(** [from("ride_codes").insert({ ride_id, code })], under the two [UNIQUE]
    columns and the reference to [rides]. *)
Definition ride_codes_insert (ride_id : option uuid) (code : string)
    (s : Store) : Store * reply unit :=
  match ride_id with
  | None => (s, inl (not_null_violation "ride_id"))
  | Some rid =>
      if negb (ride_exists rid s) then
        (s, inl (foreign_key_violation "ride_codes_ride_id_fkey"))
      else if existsb (fun c => Nat.eqb (RideCode.ride_id c) rid) (ride_codes s) then
        (s, inl (unique_violation "ride_codes_ride_id_key"))
      else if existsb (fun c => String.eqb (RideCode.code c) code) (ride_codes s) then
        (s, inl (unique_violation "ride_codes_code_key"))
      else
        let c := RideCode.mk (next_uuid s) rid code in
        (bump_uuid (with_ride_codes (ride_codes s ++ [c])%list s), inr tt)
  end.

(** [from("ride_codes").upsert({ ride_id, code })].  The call names no
    conflict target, so the store resolves conflicts on the primary key
    [id] alone; the payload carries no [id], the column default supplies a
    fresh one, and no conflict can arise on it.  The statement is therefore
    an insert under the two [UNIQUE] columns: when the ride already has a
    code row it is refused on the ride reference and the old code stays. *)
Definition ride_codes_upsert (ride_id : option uuid) (code : string)
    (s : Store) : Store * reply unit :=
  ride_codes_insert ride_id code s.

(** What becomes of an append to an audit table: the row is stored, the
    store answers with an [error] member, or the call itself rejects. *)
Inductive Outcome : Type :=
| Stored
| Refused (e : PgError)
| Rejected (reason : string).

Inductive Exn : Type :=
| ReferenceError (name : string)
| FetchError (reason : string)
| StripeError (reason : string).

(** [from("notifications").insert({...})] *)
Definition notifications_insert (o : Outcome) (user_id : option uuid)
    (type title body : string) (ride_id : option uuid) (meta : option jsonb)
    (s : Store) : Store * (Exn + reply unit) :=
  match o with
  | Stored =>
      let n := Notification.mk (next_uuid s) user_id type title body ride_id
                               meta false in
      (bump_uuid (with_notifications (notifications s ++ [n])%list s),
       inr (inr tt))
  | Refused e => (s, inr (inl e))
  | Rejected reason => (s, inl (FetchError reason))
  end.

(** [from("history").insert({...})] *)
Definition history_insert (o : Outcome) (user_id ride_id : option uuid)
    (action : string) (meta : option jsonb)
    (s : Store) : Store * (Exn + reply unit) :=
  match o with
  | Stored =>
      let h := HistoryEntry.mk (next_uuid s) user_id ride_id action meta in
      (bump_uuid (with_history (history s ++ [h])%list s), inr (inr tt))
  | Refused e => (s, inr (inl e))
  | Rejected reason => (s, inl (FetchError reason))
  end.

(* ================================================================== *)
(** * Handler programs *)
(* ================================================================== *)

(** The world a handler acts on: the data store and what was written with
    [console.error]. *)
Record World : Type := mkWorld {
  db : Store;
  console : list string
}.

Definition on_db {X : Type} (f : Store -> Store * X) (w : World) : World * X :=
  (mkWorld (fst (f (db w))) (console w), snd (f (db w))).

Definition read_db {X : Type} (f : Store -> X) (w : World) : World * X :=
  (w, f (db w)).

(** A handler: it returns, throws, or performs one atomic action on the
    world and goes on with the answer.  Each awaited call of the source is
    one action, and so is each line written to the console; the handlers in
    flight can change turns between two actions and nowhere else. *)
Inductive Prog (A : Type) : Type :=
| Ret (a : A)
| Throw (e : Exn)
| Await (X : Type) (act : World -> World * X) (k : X -> Prog A).

Arguments Ret {A} a.
Arguments Throw {A} e.
Arguments Await {A X} act k.

Fixpoint bind {A B : Type} (p : Prog A) (f : A -> Prog B) : Prog B :=
  match p with
  | Ret a => f a
  | Throw e => Throw e
  | Await act k => Await act (fun x => bind (k x) f)
  end.

(** [try { p } catch (error) { h error }] *)
Fixpoint try_catch {A : Type} (p : Prog A) (h : Exn -> Prog A) : Prog A :=
  match p with
  | Ret a => Ret a
  | Throw e => h e
  | Await act k => Await act (fun x => try_catch (k x) h)
  end.

Notation "x <- p ;; q" := (bind p (fun x => q))
  (at level 61, p at next level, right associativity).
Notation "p ;; q" := (bind p (fun _ => q))
  (at level 61, right associativity).

(** An awaited store statement. *)
Definition await_db {X : Type} (f : Store -> Store * X) : Prog X :=
  Await (on_db f) Ret.

Definition await_read {X : Type} (f : Store -> X) : Prog X :=
  Await (read_db f) Ret.

(** An awaited call whose promise may reject. *)
Definition await_call {X : Type} (f : Store -> Store * (Exn + X)) : Prog X :=
  Await (on_db f) (fun r => match r with
                            | inl e => Throw e
                            | inr x => Ret x
                            end).

(** An awaited call to the payment provider. *)
Definition await_provider {X : Type} (answer : Exn + X) : Prog X :=
  Await (fun w => (w, answer)) (fun r => match r with
                                         | inl e => Throw e
                                         | inr x => Ret x
                                         end).

(** [console.error(msg, error)] *)
Definition console_error (msg : string) : Prog unit :=
  Await (fun w => (mkWorld (db w) (console w ++ [msg])%list, tt)) Ret.

(** Running a handler to its end. *)
Fixpoint run {A : Type} (p : Prog A) (w : World) : World * (Exn + A) :=
  match p with
  | Ret a => (w, inr a)
  | Throw e => (w, inl e)
  | Await act k => let (w', x) := act w in run (k x) w'
  end.

(** One action of a handler; a finished handler stays as it is. *)
Definition step {A : Type} (p : Prog A) (w : World) : World * Prog A :=
  match p with
  | Await act k => let (w', x) := act w in (w', k x)
  | _ => (w, p)
  end.

(** Handlers in flight, advanced one action at a time in the order the
    schedule names them. *)
Fixpoint step_nth {A : Type} (i : nat) (pool : list (Prog A)) (w : World)
  : World * list (Prog A) :=
  match pool with
  | [] => (w, [])
  | p :: rest =>
      match i with
      | O => let (w', p') := step p w in (w', p' :: rest)
      | S i' => let (w', rest') := step_nth i' rest w in (w', p :: rest')
      end
  end.

Fixpoint interleave {A : Type} (schedule : list nat) (pool : list (Prog A))
    (w : World) : World * list (Prog A) :=
  match schedule with
  | [] => (w, pool)
  | i :: schedule' =>
      let (w', pool') := step_nth i pool w in interleave schedule' pool' w'
  end.

(** Handlers served one after the other, each to its end. *)
Fixpoint run_all {A : Type} (ps : list (Prog A)) (w : World)
  : World * list (Exn + A) :=
  match ps with
  | [] => (w, [])
  | p :: rest =>
      let (w', r) := run p w in
      let (w'', rs) := run_all rest w' in (w'', r :: rs)
  end.

(* ================================================================== *)
(** * Responses *)
(* ================================================================== *)

Inductive Body : Type :=
| json_error (error : string)
| json_session_completed (rideId userId : option uuid)
| json_session_status (status : string)
| json_checkout (url sessionId : string)
| json_received
| json_ride_created (ride : option Ride.row) (rideCode : string)
| json_joined (participant : option Participant.row) (joinCode : string)
| send_text (text : string).

Record Response : Type := mkResponse {
  status_code : nat;
  body : Body
}.

(** [res.json(b)] *)
Definition res_json (b : Body) : Response := mkResponse 200 b.

(** [res.status(c).json(b)] and [res.status(c).send(b)] *)
Definition res_status (c : nat) (b : Body) : Response := mkResponse c b.

(* ================================================================== *)
(** * The audit emitters *)
(* ================================================================== *)

(** The nondeterminism of one handler run: the draws of [Math.random] and
    what becomes of the two audit appends. *)
Record Oracle : Type := mkOracle {
  Math_random : nat -> Q;
  notification_outcome : Outcome;
  history_outcome : Outcome
}.

(** [createNotification] (server.js, lines 48-68) *)
Definition createNotification (o : Oracle) (userId : option uuid)
    (type title body : string) (rideId : option uuid) (meta : option jsonb)
  : Prog unit :=
  try_catch
    (await_call (notifications_insert (notification_outcome o) userId type
                                      title body rideId meta) ;;
     Ret tt)
    (fun error => console_error "Error creating notification:").

(** [logUserAction] (server.js, lines 70-86) *)
Definition logUserAction (o : Oracle) (userId : option uuid) (action : string)
    (rideId : option uuid) (meta : option jsonb) : Prog unit :=
  try_catch
    (await_call (history_insert (history_outcome o) userId rideId action meta) ;;
     Ret tt)
    (fun error => console_error "Error creating history entry:").

(** [server.js] calls [createHistoryEntry] in the ride handlers and declares
    no binding of that name (the history writer it declares is
    [logUserAction]); the module is an ES module, so the call evaluates an
    unresolvable reference. *)
Definition createHistoryEntry (o : Oracle) (userId : option uuid)
    (action : string) (rideId : option uuid) (meta : option jsonb)
  : Prog unit :=
  Throw (ReferenceError "createHistoryEntry").

(* ================================================================== *)
(** * The payment provider and the process environment *)
(* ================================================================== *)

Module Session.
Record t : Type := mk {
  id : string;
  url : string;
  payment_status : string;
  payment_intent : option string;
  metadata_rideId : option uuid;
  metadata_userId : option uuid
}.
End Session.

Module Event.
Record t : Type := mk {
  type : string;
  data_object : Session.t
}.
End Event.

Module CheckoutParams.
Record t : Type := mk {
  currency : string;
  product_name : string;
  unit_amount : Z;
  quantity : Z;
  success_url : string;
  cancel_url : string;
  customer_email : option string;
  metadata_rideId : uuid;
  metadata_userId : uuid
}.
End CheckoutParams.

(** The three calls the server makes on the provider's SDK.  A call
    answers or throws.  [webhooks_constructEvent] is the signature check on
    the raw bytes of a request. *)
Record Stripe : Type := mkStripe {
  checkout_sessions_create : CheckoutParams.t -> Exn + Session.t;
  checkout_sessions_retrieve : string -> Exn + Session.t;
  webhooks_constructEvent : string -> option string -> string -> Exn + Event.t
}.

(** What a route handler finds in [req.body].  [app.use(express.json())]
    (server.js, line 36) runs before every route: it replaces a JSON body
    by the object it parses to and leaves an empty object for any other
    request, so the [express.raw] of line 37 and of the webhook route find
    the body already read and leave it alone.  A handler that runs never
    sees the raw bytes. *)
Inductive ReqBody : Type :=
| raw_bytes (bytes : string)
| parsed_object (source : string).

Definition express_json (body : string) : ReqBody := parsed_object body.

(** [stripe.webhooks.constructEvent(payload, header, secret)]: the SDK
    checks the signature over the raw bytes of the request, and throws on a
    payload that is neither a string nor a Buffer. *)
Definition constructEvent (stripe : Stripe) (payload : ReqBody)
    (header : option string) (secret : string) : Exn + Event.t :=
  match payload with
  | raw_bytes bytes => webhooks_constructEvent stripe bytes header secret
  | parsed_object _ =>
      inl (StripeError "Webhook payload must be provided as a string or a Buffer")
  end.

Record ProcessEnv : Type := mkProcessEnv {
  FRONTEND_URL : option string;
  STRIPE_WEBHOOK_SECRET : option string
}.

(** [a || b] on a possibly absent string. *)
Definition str_or (a : option string) (b : string) : string :=
  match a with
  | Some s => if String.eqb s "" then b else s
  | None => b
  end.

(** A present and non-empty string, as the [!x] guards leave it. *)
Definition truthy_str (a : option string) : option string :=
  match a with
  | Some s => if String.eqb s "" then None else Some s
  | None => None
  end.

(** A present and non-zero number, as the [!x] guards leave it. *)
Definition truthy_num (a : option Z) : option Z :=
  match a with
  | Some z => if (z =? 0)%Z then None else Some z
  | None => None
  end.

Definition lower_ascii (c : ascii) : ascii :=
  let n := nat_of_ascii c in
  if ((65 <=? n)%nat && (n <=? 90)%nat)%bool then ascii_of_nat (n + 32) else c.

(** [String.prototype.toLowerCase] on ASCII text. *)
Fixpoint toLowerCase (s : string) : string :=
  match s with
  | EmptyString => EmptyString
  | String c s' => String (lower_ascii c) (toLowerCase s')
  end.

(** The text of an identifier inside a template literal. *)
Definition uuid_text (u : uuid) : string :=
  NilEmpty.string_of_uint (Nat.to_uint u).

(* ================================================================== *)
(** * Request bodies *)
(* ================================================================== *)

Module CheckoutBody.
Record t : Type := mk {
  rideId : option uuid;
  userId : option uuid;
  amount : option Z;
  currency : option string;
  quantity : option Z;
  driverEmail : option string;
  rideTitle : option string
}.
End CheckoutBody.

Module CreateBody.
Record t : Type := mk {
  userId : option uuid;
  title : option string;
  origin : option string;
  destination : option string;
  departureTime : option string;
  totalSeats : option Z;
  pricePerSeat : option Z
}.
End CreateBody.

Module JoinBody.
Record t : Type := mk {
  rideId : option uuid;
  userId : option uuid;
  amountDue : option Z
}.
End JoinBody.

(** A request that reaches the webhook handler: the text of its JSON body
    and its [stripe-signature] header. *)
Module WebhookRequest.
Record t : Type := mk {
  body : string;
  stripe_signature : option string
}.
End WebhookRequest.

Definition opt_num (a : option Z) : jsval :=
  match a with
  | Some z => JNum z
  | None => JNull
  end.

(** A synchronous call that returns or throws. *)
Definition sync {X : Type} (answer : Exn + X) : Prog X :=
  match answer with
  | inl e => Throw e
  | inr x => Ret x
  end.

(* ================================================================== *)
(** * The handlers *)
(* ================================================================== *)

Section Server.

Variable stripe : Stripe.
Variable process_env : ProcessEnv.

Definition frontend_url : string :=
  str_or (FRONTEND_URL process_env) "http://localhost:3000".

(** [POST /api/stripe/create-checkout-session] (server.js, lines 88-150) *)
Definition stripe_create_checkout_session (req : CheckoutBody.t)
  : Prog Response :=
  try_catch
    (match CheckoutBody.rideId req, CheckoutBody.userId req,
           truthy_num (CheckoutBody.amount req) with
     | Some rideId, Some userId, Some amount =>
         let currency :=
           match CheckoutBody.currency req with Some c => c | None => "INR" end in
         let quantity :=
           match CheckoutBody.quantity req with Some q => q | None => 1%Z end in
         session <- await_provider
           (checkout_sessions_create stripe
              (CheckoutParams.mk
                 (toLowerCase currency)
                 (str_or (CheckoutBody.rideTitle req) ("Ride " ++ uuid_text rideId))
                 amount quantity
                 (frontend_url ++ "/payment-success?session_id={CHECKOUT_SESSION_ID}")
                 (frontend_url ++ "/payment-cancelled")
                 (CheckoutBody.driverEmail req)
                 rideId userId)) ;;
         await_db (payments_insert userId rideId amount currency
                     (Session.id session) "pending"
                     [("quantity", JNum quantity)]) ;;
         Ret (res_json (json_checkout (Session.url session) (Session.id session)))
     | _, _, _ =>
         Ret (res_status 400 (json_error "Missing required parameters"))
     end)
    (fun error =>
       console_error "Error creating checkout session:" ;;
       Ret (res_status 500 (json_error "Failed to create checkout session"))).

(** The body of [if (participant) { ... }] (server.js, lines 169-208 and
    247-286), which the session handler and the webhook handler both carry
    word for word; [sessionId] is the route parameter in the first and
    [session.id] in the second. *)
Definition settle_participant (o : Oracle) (sessionId : string)
    (payment_intent : option string) (rideId userId : option uuid)
    (participant : Participant.row) : Prog unit :=
  await_db (participants_update_paid sessionId
              (num_or (Participant.amount_due participant) 0)
              (Participant.id participant)) ;;
  await_db (payments_update_completed payment_intent sessionId) ;;
  let rideCode := generateRideCode (Math_random o) 6 in
  await_db (ride_codes_upsert rideId rideCode) ;;
  createNotification o userId "payment_received" "Booking Confirmed!"
    ("Your ride code: " ++ rideCode ++ " - Use this to join the ride chat.")
    rideId (Some [("rideCode", JStr rideCode)]) ;;
  logUserAction o userId "payment" rideId
    (Some [("amount", opt_num (Participant.amount_due participant));
           ("sessionId", JStr sessionId)]).

(** [GET /api/stripe/session/:sessionId] (server.js, lines 152-222) *)
Definition stripe_session (o : Oracle) (sessionId : string) : Prog Response :=
  try_catch
    (session <- await_provider (checkout_sessions_retrieve stripe sessionId) ;;
     if String.eqb (Session.payment_status session) "paid" then
       let rideId := Session.metadata_rideId session in
       let userId := Session.metadata_userId session in
       found <- await_read (participants_select_single rideId userId) ;;
       (match found with
        | inr participant =>
            settle_participant o sessionId (Session.payment_intent session)
                               rideId userId participant
        | inl _ => Ret tt
        end) ;;
       Ret (res_json (json_session_completed rideId userId))
     else
       Ret (res_json (json_session_status (Session.payment_status session))))
    (fun error =>
       console_error "Error retrieving session:" ;;
       Ret (res_status 500 (json_error "Failed to retrieve session"))).

(** [POST /api/stripe/webhook] (server.js, lines 224-305), behind the
    [express.json()] of line 36 *)
Definition stripe_webhook (o : Oracle) (req : WebhookRequest.t)
  : Prog Response :=
  let sig := WebhookRequest.stripe_signature req in
  try_catch
    (event <- sync (constructEvent stripe
                      (express_json (WebhookRequest.body req)) sig
                      (str_or (STRIPE_WEBHOOK_SECRET process_env) "")) ;;
     (if String.eqb (Event.type event) "checkout.session.completed" then
        let session := Event.data_object event in
        let rideId := Session.metadata_rideId session in
        let userId := Session.metadata_userId session in
        match rideId, userId with
        | Some _, Some _ =>
            found <- await_read (participants_select_single rideId userId) ;;
            match found with
            | inr participant =>
                settle_participant o (Session.id session)
                                   (Session.payment_intent session)
                                   rideId userId participant
            | inl _ => Ret tt
            end
        | _, _ => Ret tt
        end
      else Ret tt) ;;
     (if String.eqb (Event.type event) "checkout.session.expired" then
        let session := Event.data_object event in
        await_db (payments_update_failed (Session.id session)) ;;
        Ret tt
      else Ret tt) ;;
     Ret (res_json json_received))
    (fun error =>
       console_error "Webhook error:" ;;
       Ret (res_status 400 (send_text "Webhook Error"))).

(** [POST /api/rides/create] (server.js, lines 390-468) *)
Definition rides_create (o : Oracle) (req : CreateBody.t) : Prog Response :=
  try_catch
    (match CreateBody.userId req, truthy_str (CreateBody.title req),
           truthy_str (CreateBody.origin req),
           truthy_str (CreateBody.destination req),
           truthy_str (CreateBody.departureTime req),
           truthy_num (CreateBody.totalSeats req),
           CreateBody.pricePerSeat req with
     | Some userId, Some title, Some origin, Some destination,
       Some departureTime, Some totalSeats, Some pricePerSeat =>
         let rideCode := generateRideCode (Math_random o) 6 in
         inserted <- await_db
           (rides_insert userId title origin destination departureTime
                         totalSeats totalSeats pricePerSeat rideCode "active") ;;
         match inserted with
         | inl error =>
             Ret (res_status 500 (json_error "Failed to create ride"))
         | inr data =>
             let rideId := option_map Ride.id (hd_error data) in
             await_db (ride_codes_insert rideId rideCode) ;;
             createNotification o (Some userId) "ride_created" "Ride Created!"
               ("Your ride from " ++ origin ++ " to " ++ destination
                                  ++ " is now live.")
               rideId
               (Some [("origin", JStr origin); ("destination", JStr destination);
                      ("rideCode", JStr rideCode)]) ;;
             createHistoryEntry o (Some userId) "create_ride" rideId
               (Some [("origin", JStr origin); ("destination", JStr destination);
                      ("totalSeats", JNum totalSeats);
                      ("pricePerSeat", JNum pricePerSeat)]) ;;
             Ret (res_json (json_ride_created (hd_error data) rideCode))
         end
     | _, _, _, _, _, _, _ =>
         Ret (res_status 400 (json_error "Missing required fields"))
     end)
    (fun error =>
       console_error "Error creating ride:" ;;
       Ret (res_status 500 (json_error "Failed to create ride"))).

(** [POST /api/rides/join] (server.js, lines 470-538) *)
Definition rides_join (o : Oracle) (req : JoinBody.t) : Prog Response :=
  try_catch
    (match JoinBody.rideId req, JoinBody.userId req with
     | Some rideId, Some userId =>
         let amountDue := JoinBody.amountDue req in
         found <- await_read (rides_select_single (Some rideId)) ;;
         match found with
         | inl rideError =>
             Ret (res_status 404 (json_error "Ride not found"))
         | inr rideData =>
             if (Ride.seats_left rideData <=? 0)%Z then
               Ret (res_status 400 (json_error "No seats available"))
             else
               let joinCode := generateRideCode (Math_random o) 8 in
               inserted <- await_db
                 (participants_insert rideId userId joinCode
                    (num_or amountDue (Ride.price_per_seat rideData)) false) ;;
               match inserted with
               | inl participantError =>
                   Ret (res_status 500 (json_error "Failed to join ride"))
               | inr participantData =>
                   await_db (rides_update_seats_left
                               (Ride.seats_left rideData - 1)%Z rideId) ;;
                   createNotification o (Some userId) "ride_joined" "Joined Ride!"
                     ("You have joined a ride from " ++ Ride.origin rideData
                        ++ " to " ++ Ride.destination rideData ++ ".")
                     (Some rideId)
                     (Some [("origin", JStr (Ride.origin rideData));
                            ("destination", JStr (Ride.destination rideData))]) ;;
                   createHistoryEntry o (Some userId) "join_ride" (Some rideId)
                     (Some [("amountDue",
                             JNum (num_or amountDue (Ride.price_per_seat rideData)))]) ;;
                   Ret (res_json (json_joined (hd_error participantData) joinCode))
               end
         end
     | _, _ => Ret (res_status 400 (json_error "Missing required fields"))
     end)
    (fun error =>
       console_error "Error joining ride:" ;;
       Ret (res_status 500 (json_error "Failed to join ride"))).

End Server.

(* ================================================================== *)
(** * Vocabulary of the properties *)
(* ================================================================== *)

(** The two channels a completion signal arrives on. *)
Inductive Trigger : Type :=
| Poll (sessionId : string)
| Push (req : WebhookRequest.t).

(** One settle invocation: the handler behind the channel. *)
Definition settle (stripe : Stripe) (process_env : ProcessEnv) (o : Oracle)
    (t : Trigger) : Prog Response :=
  match t with
  | Poll sessionId => stripe_session stripe o sessionId
  | Push req => stripe_webhook stripe process_env o req
  end.

(** The session a trigger reports as completed, with the identifier the
    handler writes under: the guards of the two handlers, read off their
    first lines.  The push never gets past its guard, the provider's check
    being handed the parsed body. *)
Definition completion (stripe : Stripe) (process_env : ProcessEnv)
    (t : Trigger) : option (string * Session.t) :=
  match t with
  | Poll sessionId =>
      match checkout_sessions_retrieve stripe sessionId with
      | inr session =>
          if String.eqb (Session.payment_status session) "paid"
          then Some (sessionId, session) else None
      | inl _ => None
      end
  | Push req =>
      match constructEvent stripe (express_json (WebhookRequest.body req))
              (WebhookRequest.stripe_signature req)
              (str_or (STRIPE_WEBHOOK_SECRET process_env) "") with
      | inr event =>
          if String.eqb (Event.type event) "checkout.session.completed"
          then Some (Session.id (Event.data_object event), Event.data_object event)
          else None
      | inl _ => None
      end
  end.

(** What each channel answers to a completion. *)
Definition completion_response (t : Trigger) (session : Session.t) : Response :=
  match t with
  | Poll _ => res_json (json_session_completed (Session.metadata_rideId session)
                                               (Session.metadata_userId session))
  | Push _ => res_json json_received
  end.

Definition has_payment (sessionId : string) (s : Store) : bool :=
  existsb (fun p => String.eqb (Payment.stripe_session_id p) sessionId)
          (payments s).

(** The session has a Payment row, and every Payment row that carries the
    session identifier is in status completed. *)
Definition payment_completed (sessionId : string) (s : Store) : bool :=
  has_payment sessionId s
  && forallb (fun p => implb (String.eqb (Payment.stripe_session_id p) sessionId)
                             (String.eqb (Payment.status p) "completed"))
             (payments s).

(** The participant rows of a ride. *)
Definition participants_of (rideId : uuid) (s : Store) : list Participant.row :=
  filter (fun p => Nat.eqb (Participant.ride_id p) rideId) (ride_participants s).

Definition is_participant (rideId userId : uuid) (s : Store) : bool :=
  existsb (fun p => Nat.eqb (Participant.ride_id p) rideId
                    && Nat.eqb (Participant.user_id p) userId)
          (ride_participants s).

(** The seat invariant of one ride. *)
Definition seats_consistent (s : Store) (r : Ride.row) : Prop :=
  (0 <= Ride.seats_left r <= Ride.total_seats r)%Z /\
  Z.of_nat (List.length (participants_of (Ride.id r) s))
  = (Ride.total_seats r - Ride.seats_left r)%Z.

Definition seat_invariant (s : Store) : Prop :=
  forall r, In r (rides s) -> seats_consistent s r.

(** Rows refer to rides that exist, and identifiers are handed out once. *)
Definition well_keyed (s : Store) : Prop :=
  NoDup (map Ride.id (rides s)) /\
  Forall (fun i => i < next_uuid s) (map Ride.id (rides s)) /\
  Forall (fun i => i < next_uuid s)
         (map Participant.ride_id (ride_participants s)).

(** Every request the server routes to one of the five handlers. *)
Inductive Request : Type :=
| POST_checkout (req : CheckoutBody.t)
| GET_session (o : Oracle) (sessionId : string)
| POST_webhook (o : Oracle) (req : WebhookRequest.t)
| POST_create (o : Oracle) (req : CreateBody.t)
| POST_join (o : Oracle) (req : JoinBody.t).

Definition handle (stripe : Stripe) (process_env : ProcessEnv) (r : Request)
  : Prog Response :=
  match r with
  | POST_checkout req => stripe_create_checkout_session stripe process_env req
  | GET_session o sessionId => stripe_session stripe o sessionId
  | POST_webhook o req => stripe_webhook stripe process_env o req
  | POST_create o req => rides_create o req
  | POST_join o req => rides_join o req
  end.

(** Requests served one after the other. *)
Definition serve (stripe : Stripe) (process_env : ProcessEnv)
    (reqs : list Request) (w : World) : World :=
  fst (run_all (map (handle stripe process_env) reqs) w).

(** A ride of a store reached from [start] that the seat invariant is
    claimed for: the ride was in [start] and consistent there, or it has
    been created since, with at least one seat. *)
Definition seats_claimed (start : Store) (r : Ride.row) : Prop :=
  (exists r0, In r0 (rides start) /\ Ride.id r0 = Ride.id r
              /\ seats_consistent start r0)
  \/ (next_uuid start <= Ride.id r /\ (0 < Ride.total_seats r)%Z).

(** What serving requests keeps true of a store reached from [start]. *)
Definition seats_kept (start s : Store) : Prop :=
  well_keyed s /\ next_uuid start <= next_uuid s
  /\ forall r, In r (rides s) -> seats_claimed start r -> seats_consistent s r.

(** The number of actions a handler performs when run from a world. *)
Fixpoint actions {A : Type} (p : Prog A) (w : World) : nat :=
  match p with
  | Await act k => let (w', x) := act w in S (actions (k x) w')
  | _ => 0
  end.

(** A creation request with every required field present. *)
Definition complete_create (req : CreateBody.t) : bool :=
  negb (falsy_id (CreateBody.userId req))
  && negb (falsy_str (CreateBody.title req))
  && negb (falsy_str (CreateBody.origin req))
  && negb (falsy_str (CreateBody.destination req))
  && negb (falsy_str (CreateBody.departureTime req))
  && negb (falsy_num (CreateBody.totalSeats req))
  && match CreateBody.pricePerSeat req with Some _ => true | None => false end.

(** The display code a creation request would be given collides with the
    unique column. *)
Definition display_code_collides (o : Oracle) (s : Store) : bool :=
  existsb (fun r => String.eqb (Ride.ride_code r)
                               (generateRideCode (Math_random o) 6))
          (rides s).



(* ================================================================== *)
(** * A provider, an environment and worlds to evaluate the handlers on *)
(* ================================================================== *)

Module Sample.

Definition session_1 : Session.t :=
  Session.mk "cs_test_1" "https://checkout.stripe.com/c/pay/cs_test_1"
             "paid" (Some "pi_1") (Some 100) (Some 2).

(** A provider that knows one session, paid by user 2 for ride 100, and
    accepts a push exactly when its signature header carries the shared
    secret. *)
Definition stripe : Stripe :=
  mkStripe
    (fun params => inr session_1)
    (fun sessionId =>
       if String.eqb sessionId "cs_test_1" then inr session_1
       else inl (StripeError "No such checkout.session"))
    (fun payload sig secret =>
       match sig with
       | Some s =>
           if String.eqb s secret
           then inr (Event.mk payload session_1)
           else inl (StripeError "No signatures found matching the expected signature for payload")
       | None => inl (StripeError "No stripe-signature header value was provided")
       end).

Definition process_env : ProcessEnv :=
  mkProcessEnv None (Some "whsec_1").

(** Draws 0, 1/10, 2/10, ...: the code ADHKOS. *)
Definition oracle_1 : Oracle :=
  mkOracle (fun i => (inject_Z (Z.of_nat i) / 10)%Q) Stored Stored.

(** Every draw 1/2: the code SSSSSS. *)
Definition oracle_2 : Oracle :=
  mkOracle (fun _ => (1 # 2)%Q) Stored Stored.

(** Both audit appends fail. *)
Definition oracle_3 : Oracle :=
  mkOracle (fun _ => (1 # 2)%Q) (Rejected "fetch failed")
           (Refused (foreign_key_violation "history_user_id_fkey")).

Definition empty_store : Store :=
  mkStore [1; 2; 3; 4] [] [] [] [] [] [] 100.

Definition empty_world : World := mkWorld empty_store [].

Definition create_req (seats : Z) : CreateBody.t :=
  CreateBody.mk (Some 1) (Some "Airport run") (Some "Pune") (Some "Mumbai")
                (Some "2026-01-05T06:00:00Z") (Some seats) (Some 500%Z).

Definition join_req (user : uuid) : JoinBody.t :=
  JoinBody.mk (Some 100) (Some user) None.

Definition checkout_req : CheckoutBody.t :=
  CheckoutBody.mk (Some 100) (Some 2) (Some 500%Z) None None None None.


(** Ride 100 with two seats at 500. *)
Definition created : World :=
  fst (run (rides_create oracle_1 (create_req 2)) empty_world).

(** User 2 has joined ride 100. *)
Definition joined : World :=
  fst (run (rides_join oracle_1 (join_req 2)) created).

(** A pending payment for session cs_test_1 of user 2. *)
Definition checked_out : World :=
  fst (run (stripe_create_checkout_session stripe process_env checkout_req)
           joined).

(** The session has been settled once, through the poll. *)
Definition settled : World :=
  fst (run (stripe_session stripe oracle_1 "cs_test_1") checked_out).

(** A pending payment whose user never joined the ride. *)
Definition paid_without_joining : World :=
  fst (run (stripe_create_checkout_session stripe process_env checkout_req)
           created).


(** Ride 100 after its owner cancelled it. *)
Definition cancelled : World :=
  mkWorld
    (mkStore [1; 2; 3; 4]
       [Ride.mk 100 1 "Airport run" "Pune" "Mumbai" "2026-01-05T06:00:00Z"
                2 2 500 "ADHKOS" "cancelled"]
       [] [] [RideCode.mk 101 100 "ADHKOS"] [] [] 103)
    [].

End Sample.

(* ================================================================== *)
(** * The read-model handlers: notifications and history *)
(* ================================================================== *)

(** [update({ read: true })] on one row. *)
Definition notification_set_read (n : Notification.row) : Notification.row :=
  Notification.mk (Notification.id n) (Notification.user_id n)
                  (Notification.type n) (Notification.title n)
                  (Notification.body n) (Notification.ride_id n)
                  (Notification.meta n) true.

(** [.order(column, { ascending: false })]: rows by decreasing key; rows of
    equal key keep the order the table holds them in. *)
Fixpoint insert_desc {A : Type} (key : A -> nat) (x : A) (l : list A) : list A :=
  match l with
  | [] => [x]
  | y :: rest =>
      if (key y <? key x)%nat then x :: y :: rest
      else y :: insert_desc key x rest
  end.

Fixpoint order_desc {A : Type} (key : A -> nat) (l : list A) : list A :=
  match l with
  | [] => []
  | x :: rest => insert_desc key x (order_desc key rest)
  end.

(** [.limit(n)] *)
Definition limit {A : Type} (n : nat) (l : list A) : list A := firstn n l.

(** The rows of the two audit tables carry a [created_at timestamptz DEFAULT
    now()] column that no handler writes or reads back except to order by
    it; the handlers below take the column as a function of the row. *)

(** [from("notifications").select("*").eq("user_id", userId)
      .order("created_at", { ascending: false }).limit(20)] *)
Definition notifications_select_recent (created_at : Notification.row -> nat)
    (userId : uuid) (s : Store) : reply (list Notification.row) :=
  inr (limit 20
         (order_desc created_at
            (filter (fun n => eq_opt_uuid userId (Notification.user_id n))
                    (notifications s)))).

(** [from("notifications").update({ read: true }).eq("id", notificationId)] *)
Definition notifications_update_read (notificationId : uuid) (s : Store)
  : Store * reply unit :=
  (with_notifications
     (map (fun n => if Nat.eqb (Notification.id n) notificationId
                    then notification_set_read n else n)
          (notifications s)) s,
   inr tt).

(** [from("history").select("*").eq("user_id", userId)
      .order("created_at", { ascending: false }).limit(50)] *)
Definition history_select_recent (created_at : HistoryEntry.row -> nat)
    (userId : uuid) (s : Store) : reply (list HistoryEntry.row) :=
  inr (limit 50
         (order_desc created_at
            (filter (fun h => eq_opt_uuid userId (HistoryEntry.user_id h))
                    (history s)))).

Inductive ReadBody : Type :=
| json_read_error (error : string)
| json_notifications (notifications : list Notification.row)
| json_success_true
| json_history (history : list HistoryEntry.row).

Record ReadResponse : Type := mkReadResponse {
  read_status_code : nat;
  read_body : ReadBody
}.

(** [GET /api/notifications/:userId] (server.js, lines 577-597) *)
Definition notifications_list (created_at : Notification.row -> nat)
    (userId : uuid) : Prog ReadResponse :=
  try_catch
    (answer <- await_read (notifications_select_recent created_at userId) ;;
     match answer with
     | inl error =>
         Ret (mkReadResponse 500 (json_read_error "Failed to fetch notifications"))
     | inr data => Ret (mkReadResponse 200 (json_notifications data))
     end)
    (fun error =>
       console_error "Error fetching notifications:" ;;
       Ret (mkReadResponse 500 (json_read_error "Failed to fetch notifications"))).

(** [PATCH /api/notifications/:notificationId/read] (server.js, lines
    599-620) *)
Definition notifications_read (notificationId : uuid) : Prog ReadResponse :=
  try_catch
    (answer <- await_db (notifications_update_read notificationId) ;;
     match answer with
     | inl error =>
         Ret (mkReadResponse 500 (json_read_error "Failed to update notification"))
     | inr _ => Ret (mkReadResponse 200 json_success_true)
     end)
    (fun error =>
       console_error "Error updating notification:" ;;
       Ret (mkReadResponse 500 (json_read_error "Failed to update notification"))).

(** [GET /api/history/:userId] (server.js, lines 622-642) *)
Definition history_list (created_at : HistoryEntry.row -> nat)
    (userId : uuid) : Prog ReadResponse :=
  try_catch
    (answer <- await_read (history_select_recent created_at userId) ;;
     match answer with
     | inl error =>
         Ret (mkReadResponse 500 (json_read_error "Failed to fetch history"))
     | inr data => Ret (mkReadResponse 200 (json_history data))
     end)
    (fun error =>
       console_error "Error fetching history:" ;;
       Ret (mkReadResponse 500 (json_read_error "Failed to fetch history"))).

(* ================================================================== *)
(** * Further vocabulary *)
(* ================================================================== *)

(** The position of a character in a string. *)
Fixpoint index_in (c : ascii) (s : string) : option nat :=
  match s with
  | EmptyString => None
  | String d rest =>
      if Ascii.eqb c d then Some 0
      else option_map S (index_in c rest)
  end.

(** A draw of [Math.random] that selects a given character: the middle of
    the interval of draws that the generator maps to it. *)
Definition draw_for (c : ascii) : Q :=
  match index_in c chars with
  | Some k => (Z.of_nat (2 * k + 1) # 72)%Q
  | None => 0%Q
  end.

(** The draws that spell a given code, one per character. *)
Definition draws_for (code : string) (i : nat) : Q :=
  match String.get i code with
  | Some c => draw_for c
  | None => 0%Q
  end.

(** [l'] is [l] with rows appended. *)
Definition extends {A : Type} (l l' : list A) : Prop :=
  exists added, l' = (l ++ added)%list.

(** The (ride, user) pair a participant row is unique on. *)
Definition participant_key (p : Participant.row) : uuid * uuid :=
  (Participant.ride_id p, Participant.user_id p).

(** The three uniqueness constraints the handlers insert under. *)
Definition unique_keys (s : Store) : Prop :=
  NoDup (map participant_key (ride_participants s))
  /\ NoDup (map Payment.stripe_session_id (payments s))
  /\ NoDup (map Ride.ride_code (rides s)).

(** A list sorted by decreasing key. *)
Fixpoint sorted_desc {A : Type} (key : A -> nat) (l : list A) : Prop :=
  match l with
  | [] => True
  | x :: rest => Forall (fun y => key y <= key x) rest /\ sorted_desc key rest
  end.

(** The session parameters the checkout handler sends to the provider
    (server.js, lines 104-131). *)
Definition checkout_params (process_env : ProcessEnv) (req : CheckoutBody.t)
    (rideId userId : uuid) (amount : Z) : CheckoutParams.t :=
  CheckoutParams.mk
    (toLowerCase (match CheckoutBody.currency req with
                  | Some c => c
                  | None => "INR"
                  end))
    (str_or (CheckoutBody.rideTitle req) ("Ride " ++ uuid_text rideId))
    amount
    (match CheckoutBody.quantity req with Some q => q | None => 1%Z end)
    (frontend_url process_env
       ++ "/payment-success?session_id={CHECKOUT_SESSION_ID}")
    (frontend_url process_env ++ "/payment-cancelled")
    (CheckoutBody.driverEmail req)
    rideId userId.

(** A ride as a later store holds it: the same row but for seats_left,
    which has not grown. *)
Definition ride_kept (before after : Ride.row) : Prop :=
  Ride.id after = Ride.id before
  /\ Ride.created_by after = Ride.created_by before
  /\ Ride.title after = Ride.title before
  /\ Ride.origin after = Ride.origin before
  /\ Ride.destination after = Ride.destination before
  /\ Ride.departure_time after = Ride.departure_time before
  /\ Ride.total_seats after = Ride.total_seats before
  /\ Ride.price_per_seat after = Ride.price_per_seat before
  /\ Ride.ride_code after = Ride.ride_code before
  /\ Ride.status after = Ride.status before
  /\ (Ride.seats_left after <= Ride.seats_left before)%Z.

(** A participant row as a later store holds it: the same membership, join
    code and amount due, and still paid if it was. *)
Definition participant_kept (before after : Participant.row) : Prop :=
  Participant.id after = Participant.id before
  /\ Participant.ride_id after = Participant.ride_id before
  /\ Participant.user_id after = Participant.user_id before
  /\ Participant.join_code after = Participant.join_code before
  /\ Participant.amount_due after = Participant.amount_due before
  /\ (Participant.paid before = true -> Participant.paid after = true).

Definition rides_kept (s s' : Store) : Prop :=
  forall r0, In r0 (rides s) -> exists r, In r (rides s') /\ ride_kept r0 r.

Definition participants_kept (s s' : Store) : Prop :=
  forall p0, In p0 (ride_participants s) ->
             exists p, In p (ride_participants s') /\ participant_kept p0 p.

Definition audit_extended (s s' : Store) : Prop :=
  extends (notifications s) (notifications s')
  /\ extends (history s) (history s').


(* ================================================================== *)
(** * Properties *)
(* ================================================================== *)

#[local] Arguments rides_select_single : simpl never.
#[local] Arguments rides_insert : simpl never.
#[local] Arguments rides_update_seats_left : simpl never.
#[local] Arguments participants_select_single : simpl never.
#[local] Arguments participants_insert : simpl never.
#[local] Arguments participants_update_paid : simpl never.
#[local] Arguments payments_insert : simpl never.
#[local] Arguments payments_update_completed : simpl never.
#[local] Arguments payments_update_failed : simpl never.
#[local] Arguments ride_codes_insert : simpl never.
#[local] Arguments ride_codes_upsert : simpl never.
#[local] Arguments notifications_insert : simpl never.
#[local] Arguments history_insert : simpl never.
#[local] Arguments generateRideCode : simpl never.
#[local] Arguments String.append : simpl never.
#[local] Arguments num_or : simpl never.

(** ** Running a program *)
Lemma run_bind {A B : Type} (p : Prog A) (f : A -> Prog B) (w : World) :
  run (bind p f) w =
  match run p w with
  | (w', inr a) => run (f a) w'
  | (w', inl e) => (w', inl e)
  end.
Proof.
  revert w. induction p as [a | e | X act k IH]; intros w; simpl; auto.
  destruct (act w) as [w' x]. apply IH.
Qed.

Lemma run_try_catch {A : Type} (p : Prog A) (h : Exn -> Prog A) (w : World) :
  run (try_catch p h) w =
  match run p w with
  | (w', inr a) => (w', inr a)
  | (w', inl e) => run (h e) w'
  end.
Proof.
  revert w. induction p as [a | e | X act k IH]; intros w; simpl; auto.
  destruct (act w) as [w' x]. apply IH.
Qed.

Lemma run_step {A : Type} (p : Prog A) (w : World) :
  run p w = let (w', p') := step p w in run p' w'.
Proof.
  destruct p; simpl; auto. destruct (act w); reflexivity.
Qed.

(** ** The code generator *)

Lemma string_length_append (a b : string) :
  String.length (a ++ b) = String.length a + String.length b.
Proof. induction a; simpl; auto. Qed.

Lemma string_forallb_append f (a b : string) :
  string_forallb f (a ++ b) = string_forallb f a && string_forallb f b.
Proof. induction a; simpl; auto. rewrite IHa. now rewrite andb_assoc. Qed.

Lemma chars_table :
  forallb (fun n => match String.get n chars with
                    | Some c => in_alphabet c
                    | None => false
                    end) (seq 0 36) = true.
Proof. reflexivity. Qed.

Lemma charAt_chars (z : Z) :
  (0 <= z < 36)%Z ->
  exists c, charAt chars z = String c EmptyString /\ in_alphabet c = true.
Proof.
  intros Hz. unfold charAt.
  destruct (Z.ltb_spec z 0) as [Hneg | _]; [lia |].
  pose proof chars_table as T. rewrite forallb_forall in T.
  specialize (T (Z.to_nat z)).
  assert (Hin : In (Z.to_nat z) (seq 0 36)) by (apply in_seq; lia).
  specialize (T Hin).
  destruct (String.get (Z.to_nat z) chars) as [c |]; [| discriminate].
  exists c. split; auto.
Qed.

Lemma draw_in_range (r : Q) :
  (0 <= r)%Q -> (r < 1)%Q ->
  (0 <= Math_floor (r * inject_Z (Z.of_nat (String.length chars)))%Q < 36)%Z.
Proof.
  intros H0 H1. unfold Math_floor.
  change (Z.of_nat (String.length chars)) with 36%Z.
  split.
  - assert (H : (Qfloor 0 <= Qfloor (r * inject_Z 36))%Z).
    { apply Qfloor_resp_le. apply Qmult_le_0_compat; [exact H0 | discriminate]. }
    exact H.
  - assert (Hlt : (r * inject_Z 36 < inject_Z 36)%Q).
    { setoid_replace (inject_Z 36) with (1 * inject_Z 36)%Q at 2 by ring.
      apply Qmult_lt_r; [reflexivity | exact H1]. }
    pose proof (Qfloor_le (r * inject_Z 36)) as Hfl.
    pose proof (Qle_lt_trans _ _ _ Hfl Hlt) as Hz.
    rewrite <- Zlt_Qlt in Hz. exact Hz.
Qed.

Lemma generateRideCode_loop_spec (rnd : nat -> Q) (fuel : nat) :
  forall i code,
    (forall j, i <= j < i + fuel -> (0 <= rnd j)%Q /\ (rnd j < 1)%Q) ->
    String.length (generateRideCode_loop rnd fuel i code)
    = String.length code + fuel
    /\ string_forallb in_alphabet (generateRideCode_loop rnd fuel i code)
      = string_forallb in_alphabet code.
Proof.
  induction fuel as [| fuel IH]; intros i code Hrnd;
    cbn [generateRideCode_loop].
  - split; [lia | reflexivity].
  - destruct (Hrnd i) as [H0 H1]; [lia |].
    destruct (charAt_chars _ (draw_in_range _ H0 H1)) as [c [Hc Hin]].
    rewrite Hc.
    destruct (IH (S i) (code ++ String c EmptyString)) as [L F].
    { intros j Hj. apply Hrnd. lia. }
    rewrite L, F, string_length_append, string_forallb_append. simpl.
    rewrite Hin. split; [lia | now rewrite !andb_true_r].
Qed.

(** C10.  For every length L and every sequence of draws of
    [Math.random], the first L of them in the interval from 0 inclusive to
    1 exclusive, the generator returns a string of exactly L characters,
    each of them an uppercase letter or a digit. *)
Theorem generateRideCode_length_alphabet (rnd : nat -> Q) (L : nat) :
  (forall i, i < L -> (0 <= rnd i)%Q /\ (rnd i < 1)%Q) ->
  String.length (generateRideCode rnd L) = L
  /\ string_forallb in_alphabet (generateRideCode rnd L) = true.
Proof.
  intros Hrnd. unfold generateRideCode.
  destruct (generateRideCode_loop_spec rnd L 0 "") as [Hl Hf].
  { intros j Hj. apply Hrnd. lia. }
  rewrite Hl, Hf. split; reflexivity.
Qed.

Lemma generateRideCode_length_alphabet_witness :
  String.length (generateRideCode (Math_random Sample.oracle_1) 8) = 8
  /\ string_forallb in_alphabet (generateRideCode (Math_random Sample.oracle_1) 8)
     = true.
Proof.
  apply (generateRideCode_length_alphabet (Math_random Sample.oracle_1) 8).
  intros i Hi. simpl.
  do 8 (destruct i as [| i]; [split; [discriminate | reflexivity] |]).
  lia.
Defined.

(** ** The webhook and its signature *)

(** The body the webhook handler hands to the provider's check is the
    object [express.json()] has parsed, which the check refuses: the handler
    logs and answers 400 whatever the request. *)
Lemma webhook_run (stripe : Stripe) (process_env : ProcessEnv) (o : Oracle)
    (req : WebhookRequest.t) (w : World) :
  run (stripe_webhook stripe process_env o req) w
  = (mkWorld (db w) (console w ++ ["Webhook error:"])%list,
     inr (res_status 400 (send_text "Webhook Error"))).
Proof. reflexivity. Qed.



(** ** The audit emitters never throw *)

Lemma createNotification_returns (o : Oracle) (userId : option uuid)
    (type title body : string) (rideId : option uuid) (meta : option jsonb)
    (w : World) :
  snd (run (createNotification o userId type title body rideId meta) w) = inr tt.
Proof.
  unfold createNotification, notifications_insert.
  destruct (notification_outcome o); reflexivity.
Qed.

Lemma logUserAction_returns (o : Oracle) (userId : option uuid) (action : string)
    (rideId : option uuid) (meta : option jsonb) (w : World) :
  snd (run (logUserAction o userId action rideId meta) w) = inr tt.
Proof.
  unfold logUserAction, history_insert.
  destruct (history_outcome o); reflexivity.
Qed.

(** ** What the code-table statements leave alone *)

Lemma ride_codes_insert_frame (rideId : option uuid) (code : string) (s : Store) :
  let s' := fst (ride_codes_insert rideId code s) in
  auth_users s' = auth_users s /\ rides s' = rides s
  /\ ride_participants s' = ride_participants s /\ payments s' = payments s
  /\ notifications s' = notifications s /\ history s' = history s
  /\ next_uuid s <= next_uuid s'.
Proof.
  unfold ride_codes_insert. destruct rideId as [rid |]; simpl.
  - destruct (negb (ride_exists rid s)); simpl; [intuition lia |].
    destruct (existsb _ (ride_codes s)); simpl; [intuition lia |].
    destruct (existsb _ (ride_codes s)); simpl; intuition lia.
  - intuition lia.
Qed.

Lemma ride_codes_upsert_frame (rideId : option uuid) (code : string) (s : Store) :
  let s' := fst (ride_codes_upsert rideId code s) in
  auth_users s' = auth_users s /\ rides s' = rides s
  /\ ride_participants s' = ride_participants s /\ payments s' = payments s
  /\ notifications s' = notifications s /\ history s' = history s
  /\ next_uuid s <= next_uuid s'.
Proof.
  unfold ride_codes_upsert. apply ride_codes_insert_frame.
Qed.

(** ** The settlement block, table by table *)

Lemma settle_participant_returns (o : Oracle) (sessionId : string)
    (intent : option string) (rideId userId : option uuid)
    (p : Participant.row) (w : World) :
  snd (run (settle_participant o sessionId intent rideId userId p) w) = inr tt.
Proof.
  unfold settle_participant, createNotification, logUserAction,
    participants_update_paid, payments_update_completed,
    notifications_insert, history_insert.
  simpl.
  destruct (notification_outcome o), (history_outcome o); reflexivity.
Qed.

Lemma settle_participant_tables (o : Oracle) (sessionId : string)
    (intent : option string) (rideId userId : option uuid)
    (p : Participant.row) (w : World) :
  let s' := db (fst (run (settle_participant o sessionId intent rideId userId p) w)) in
  ride_participants s'
  = map (fun q => if Nat.eqb (Participant.id q) (Participant.id p)
                  then Participant.set_paid sessionId
                         (num_or (Participant.amount_due p) 0) q
                  else q) (ride_participants (db w))
  /\ payments s'
     = map (fun q => if String.eqb (Payment.stripe_session_id q) sessionId
                     then Payment.set_completed intent q else q)
           (payments (db w))
  /\ rides s' = rides (db w)
  /\ auth_users s' = auth_users (db w)
  /\ next_uuid (db w) <= next_uuid s'.
Proof.
  unfold settle_participant, createNotification, logUserAction,
    participants_update_paid, payments_update_completed,
    notifications_insert, history_insert.
  simpl.
  match goal with
  | |- context [ride_codes_upsert ?a ?b ?s] =>
      pose proof (ride_codes_upsert_frame a b s) as F;
      set (s1 := fst (ride_codes_upsert a b s)) in *
  end.
  simpl in F. destruct F as (Fa & Fr & Fp & Fy & Fn & Fh & Fu).
  destruct (notification_outcome o), (history_outcome o); simpl;
    rewrite ?Fa, ?Fr, ?Fp, ?Fy; repeat split; auto; lia.
Qed.

Lemma single_nil_filter {A : Type} (l : list A) :
  single (filter (fun _ => false) l) = inl not_a_single_row.
Proof. induction l; simpl; auto. Qed.

Lemma participants_select_absent_user (rideId : option uuid) (s : Store) :
  participants_select_single rideId None s = inl not_a_single_row.
Proof.
  unfold participants_select_single.
  rewrite (filter_ext _ (fun _ => false)).
  - apply single_nil_filter.
  - intros p. simpl. apply andb_false_r.
Qed.

Lemma participants_select_absent_ride (userId : option uuid) (s : Store) :
  participants_select_single None userId s = inl not_a_single_row.
Proof.
  unfold participants_select_single.
  rewrite (filter_ext _ (fun _ => false)).
  - apply single_nil_filter.
  - intros p. reflexivity.
Qed.

Lemma eqb_completed_not_expired (ty : string) :
  String.eqb ty "checkout.session.completed" = true ->
  String.eqb ty "checkout.session.expired" = false.
Proof.
  intros H. apply String.eqb_eq in H. subst ty. reflexivity.
Qed.

(** A poll of a paid session runs the settlement block when the participant
    row is found and writes nothing otherwise. *)
Lemma poll_run (stripe : Stripe) (o : Oracle) (sessionId : string)
    (session : Session.t) (w : World) :
  checkout_sessions_retrieve stripe sessionId = inr session ->
  Session.payment_status session = "paid" ->
  run (stripe_session stripe o sessionId) w =
  match participants_select_single (Session.metadata_rideId session)
          (Session.metadata_userId session) (db w) with
  | inr p =>
      (fst (run (settle_participant o sessionId (Session.payment_intent session)
                   (Session.metadata_rideId session)
                   (Session.metadata_userId session) p) w),
       inr (res_json (json_session_completed (Session.metadata_rideId session)
                                             (Session.metadata_userId session))))
  | inl _ =>
      (w, inr (res_json (json_session_completed (Session.metadata_rideId session)
                                                (Session.metadata_userId session))))
  end.
Proof.
  intros Hret Hpaid. unfold stripe_session. rewrite Hret.
  rewrite run_try_catch. cbn [await_provider bind run]. rewrite Hpaid.
  cbn [String.eqb Ascii.eqb Bool.eqb andb].
  rewrite run_bind. cbn [await_read run read_db].
  destruct (participants_select_single _ _ (db w)) as [err | p].
  - reflexivity.
  - rewrite run_bind.
    rewrite (surjective_pairing (run (settle_participant _ _ _ _ _ _) w)).
    rewrite settle_participant_returns. reflexivity.
Qed.

(** A poll of a session the provider does not report as paid leaves the
    store as it was. *)
Lemma poll_not_paid_db (stripe : Stripe) (o : Oracle) (sessionId : string)
    (w : World) :
  (forall session, checkout_sessions_retrieve stripe sessionId = inr session ->
                   Session.payment_status session <> "paid") ->
  db (fst (run (stripe_session stripe o sessionId) w)) = db w.
Proof.
  intros H. unfold stripe_session.
  destruct (checkout_sessions_retrieve stripe sessionId) as [e | s] eqn:E;
    [reflexivity |].
  cbn [await_provider try_catch bind run fst].
  destruct (String.eqb (Session.payment_status s) "paid") eqn:Hp;
    [| reflexivity].
  apply String.eqb_eq in Hp. now destruct (H s eq_refl).
Qed.

(** The session a trigger completes: the poll's paid session; the push
    never completes one, its body being refused before the event is read. *)
Lemma completion_poll (stripe : Stripe) (process_env : ProcessEnv)
    (t : Trigger) (sessionId : string) (session : Session.t) :
  completion stripe process_env t = Some (sessionId, session) ->
  t = Poll sessionId
  /\ checkout_sessions_retrieve stripe sessionId = inr session
  /\ Session.payment_status session = "paid".
Proof.
  destruct t as [sid | req]; unfold completion.
  - destruct (checkout_sessions_retrieve stripe sid) as [e | s] eqn:Hret;
      [discriminate |].
    destruct (String.eqb (Session.payment_status s) "paid") eqn:Hpaid;
      [| discriminate].
    intros H. injection H as <- <-. apply String.eqb_eq in Hpaid. auto.
  - discriminate.
Qed.

(** A completion runs the settlement block when the participant row is
    found and does nothing otherwise. *)
Lemma settle_run (stripe : Stripe) (process_env : ProcessEnv) (o : Oracle)
    (t : Trigger) (sessionId : string) (session : Session.t) (w : World) :
  completion stripe process_env t = Some (sessionId, session) ->
  run (settle stripe process_env o t) w =
  match participants_select_single (Session.metadata_rideId session)
          (Session.metadata_userId session) (db w) with
  | inr p =>
      (fst (run (settle_participant o sessionId (Session.payment_intent session)
                   (Session.metadata_rideId session)
                   (Session.metadata_userId session) p) w),
       inr (completion_response t session))
  | inl _ => (w, inr (completion_response t session))
  end.
Proof.
  intros Hc. destruct (completion_poll _ _ _ _ _ Hc) as (-> & Hret & Hpaid).
  exact (poll_run stripe o sessionId session w Hret Hpaid).
Qed.

Lemma settle_participant_audit (o : Oracle) (sessionId : string)
    (intent : option string) (rideId userId : option uuid)
    (p : Participant.row) (w : World) :
  let s' := db (fst (run (settle_participant o sessionId intent rideId userId p) w)) in
  (notification_outcome o = Stored ->
   exists n, notifications s' = (notifications (db w) ++ [n])%list
             /\ Notification.type n = "payment_received"
             /\ Notification.user_id n = userId
             /\ Notification.meta n
                = Some [("rideCode", JStr (generateRideCode (Math_random o) 6))])
  /\ (history_outcome o = Stored ->
      exists h, history s' = (history (db w) ++ [h])%list
                /\ HistoryEntry.action h = "payment"
                /\ HistoryEntry.user_id h = userId).
Proof.
  unfold settle_participant, createNotification, logUserAction,
    participants_update_paid, payments_update_completed,
    notifications_insert, history_insert.
  simpl.
  match goal with
  | |- context [ride_codes_upsert ?a ?b ?s] =>
      pose proof (ride_codes_upsert_frame a b s) as F;
      set (s1 := fst (ride_codes_upsert a b s)) in *
  end.
  simpl in F. destruct F as (Fa & Fr & Fp & Fy & Fn & Fh & Fu).
  destruct (notification_outcome o), (history_outcome o); simpl;
    rewrite ?Fn, ?Fh; split; intros E; try discriminate E;
    eexists; repeat split.
Qed.

Lemma filter_map_commute {A : Type} (P : A -> bool) (f : A -> A) (l : list A) :
  (forall x, P (f x) = P x) -> filter P (map f l) = map f (filter P l).
Proof.
  intros H. induction l as [| x l IH]; simpl; auto.
  rewrite H. destruct (P x); simpl; now rewrite IH.
Qed.

Lemma single_map {A : Type} (f : A -> A) (l : list A) (x : A) :
  single l = inr x -> single (map f l) = inr (f x).
Proof.
  destruct l as [| a [| b l]]; simpl; intros H; try discriminate.
  now injection H as ->.
Qed.

Lemma single_map_none {A : Type} (f : A -> A) (l : list A) (e : PgError) :
  single l = inl e -> single (map f l) = inl e.
Proof.
  destruct l as [| a [| b l]]; simpl; intros H; try discriminate; exact H.
Qed.

Lemma map_idempotent {A : Type} (f : A -> A) (l : list A) :
  (forall x, f (f x) = f x) -> map f (map f l) = map f l.
Proof.
  intros H. rewrite map_map. apply map_ext. exact H.
Qed.

Lemma map_no_match {A : Type} (P : A -> bool) (f : A -> A) (l : list A) :
  existsb P l = false -> map (fun x => if P x then f x else x) l = l.
Proof.
  induction l as [| x l IH]; simpl; auto.
  intros H. apply orb_false_iff in H as [Hx Hl].
  rewrite Hx, IH; auto.
Qed.

(** The participant the settlement block has written is found again, as
    written. *)
Lemma participants_select_after_mark (rideId userId : option uuid)
    (sessionId : string) (amount : Z) (id : uuid) (s s' : Store)
    (p : Participant.row) :
  ride_participants s'
  = map (fun q => if Nat.eqb (Participant.id q) id
                  then Participant.set_paid sessionId amount q else q)
        (ride_participants s) ->
  participants_select_single rideId userId s = inr p ->
  participants_select_single rideId userId s'
  = inr (if Nat.eqb (Participant.id p) id
         then Participant.set_paid sessionId amount p else p).
Proof.
  unfold participants_select_single. intros -> H.
  rewrite filter_map_commute.
  - exact (single_map
             (fun q => if Nat.eqb (Participant.id q) id
                       then Participant.set_paid sessionId amount q else q)
             _ p H).
  - intros q. destruct (Nat.eqb (Participant.id q) id); reflexivity.
Qed.

Lemma participants_select_after_mark_none (rideId userId : option uuid)
    (sessionId : string) (amount : Z) (id : uuid) (s s' : Store)
    (e : PgError) :
  ride_participants s'
  = map (fun q => if Nat.eqb (Participant.id q) id
                  then Participant.set_paid sessionId amount q else q)
        (ride_participants s) ->
  participants_select_single rideId userId s = inl e ->
  participants_select_single rideId userId s' = inl e.
Proof.
  unfold participants_select_single. intros -> H.
  rewrite filter_map_commute.
  - now apply single_map_none.
  - intros q. destruct (Nat.eqb (Participant.id q) id); reflexivity.
Qed.

(** A ride that has its code row keeps it: a further code for the ride is
    refused on the ride column and the table stays as it was. *)
Lemma ride_codes_upsert_taken (rid : uuid) (code : string) (s : Store) :
  existsb (fun c => Nat.eqb (RideCode.ride_id c) rid) (ride_codes s) = true ->
  fst (ride_codes_upsert (Some rid) code s) = s.
Proof.
  intros H. unfold ride_codes_upsert, ride_codes_insert.
  destruct (negb (ride_exists rid s)); [reflexivity |].
  rewrite H. reflexivity.
Qed.

Lemma settle_participant_codes (o : Oracle) (sessionId : string)
    (intent : option string) (rid : uuid) (userId : option uuid)
    (p : Participant.row) (w : World) :
  existsb (fun c => Nat.eqb (RideCode.ride_id c) rid) (ride_codes (db w)) = true ->
  ride_codes (db (fst (run (settle_participant o sessionId intent (Some rid)
                              userId p) w)))
  = ride_codes (db w).
Proof.
  intros H.
  unfold settle_participant, createNotification, logUserAction,
    participants_update_paid, payments_update_completed,
    notifications_insert, history_insert.
  simpl.
  rewrite ride_codes_upsert_taken by exact H.
  destruct (notification_outcome o), (history_outcome o); reflexivity.
Qed.

Lemma participants_select_ride (rideId userId : option uuid) (s : Store)
    (p : Participant.row) :
  participants_select_single rideId userId s = inr p ->
  rideId = Some (Participant.ride_id p) /\ userId = Some (Participant.user_id p).
Proof.
  unfold participants_select_single. intros H.
  assert (Hin : In p (filter (fun q => eq_opt_uuid (Participant.ride_id q) rideId
                                       && eq_opt_uuid (Participant.user_id q) userId)
                             (ride_participants s))).
  { destruct (filter _ _) as [| a [| b l]]; simpl in H; try discriminate.
    injection H as ->. now left. }
  apply filter_In in Hin as [_ Hp]. apply andb_true_iff in Hp as [Hr Hu].
  destruct rideId as [r |], userId as [u |]; simpl in Hr, Hu; try discriminate.
  apply Nat.eqb_eq in Hr, Hu. subst. auto.
Qed.

(** C5 (as amended).  When the poll of a paid session resolves to a
    session whose participant row for (ride, user) is missing, the handler
    writes nothing at all: the world, and with it the Payment row and its
    status, is left exactly as it was, and the poll is answered with
    status "completed" as for any paid session. *)
Theorem poll_without_participant_writes_nothing (stripe : Stripe) (o : Oracle)
    (sessionId : string) (session : Session.t) (w : World) (e : PgError) :
  checkout_sessions_retrieve stripe sessionId = inr session ->
  Session.payment_status session = "paid" ->
  participants_select_single (Session.metadata_rideId session)
    (Session.metadata_userId session) (db w) = inl e ->
  run (stripe_session stripe o sessionId) w
  = (w, inr (res_json (json_session_completed
                         (Session.metadata_rideId session)
                         (Session.metadata_userId session)))).
Proof.
  intros Hret Hpaid Hsel. rewrite (poll_run _ o _ _ w Hret Hpaid), Hsel.
  reflexivity.
Qed.

Lemma poll_without_participant_writes_nothing_witness :
  run (stripe_session Sample.stripe Sample.oracle_2 "cs_test_1")
      Sample.paid_without_joining
  = (Sample.paid_without_joining,
     inr (res_json (json_session_completed (Some 100) (Some 2)))).
Proof.
  apply (poll_without_participant_writes_nothing Sample.stripe Sample.oracle_2
           "cs_test_1" Sample.session_1 Sample.paid_without_joining
           not_a_single_row).
  - reflexivity.
  - reflexivity.
  - reflexivity.
Defined.

(** C5 fails as stated: a pending Payment exists for the session, its user
    never joined the ride, and after the settle invocation the Payment is
    still pending, not completed. *)
Lemma settle_without_participant_leaves_payment_pending :
  completion Sample.stripe Sample.process_env (Poll "cs_test_1")
  = Some ("cs_test_1", Sample.session_1)
  /\ map Payment.stripe_session_id (payments (db Sample.paid_without_joining))
     = ["cs_test_1"]
  /\ participants_select_single (Some 100) (Some 2)
       (db Sample.paid_without_joining) = inl not_a_single_row
  /\ map Payment.status
       (payments (db (fst (run (settle Sample.stripe Sample.process_env
                                  Sample.oracle_2 (Poll "cs_test_1"))
                               Sample.paid_without_joining))))
     = ["pending"].
Proof. repeat split. Qed.




(** C1 (as amended).  The poll handler never reads the Payment status, so
    a poll for a paid session whose Payment rows are already completed
    runs the settlement block again whenever the participant row is found,
    in whatever state the store is.  It reports status "completed".  The
    Payment rows of the session stay completed and take the payment
    intent the provider reports; no other Payment row changes.  The
    Participant row is written again: it is marked paid, its
    stripe_session_id is set to this session and its amount_paid to its
    amount_due, whatever it held before.  A ride that has its code row
    keeps it, the code table being left as it was.  A code is generated
    all the same, and a further payment_received notification carrying
    that code and a further payment history entry are appended whenever
    the audit appends are stored. *)
Theorem poll_of_completed_session_settles_again (stripe : Stripe) (o : Oracle)
    (sessionId : string) (session : Session.t) (p : Participant.row)
    (w : World) :
  checkout_sessions_retrieve stripe sessionId = inr session ->
  Session.payment_status session = "paid" ->
  payment_completed sessionId (db w) = true ->
  participants_select_single (Session.metadata_rideId session)
    (Session.metadata_userId session) (db w) = inr p ->
  let r := run (stripe_session stripe o sessionId) w in
  snd r = inr (res_json (json_session_completed
                           (Session.metadata_rideId session)
                           (Session.metadata_userId session)))
  /\ payments (db (fst r))
     = map (fun q => if String.eqb (Payment.stripe_session_id q) sessionId
                     then Payment.set_completed (Session.payment_intent session) q
                     else q) (payments (db w))
  /\ map Payment.status (payments (db (fst r)))
     = map Payment.status (payments (db w))
  /\ ride_participants (db (fst r))
     = map (fun q => if Nat.eqb (Participant.id q) (Participant.id p)
                     then Participant.set_paid sessionId
                            (num_or (Participant.amount_due p) 0) q
                     else q) (ride_participants (db w))
  /\ participants_select_single (Session.metadata_rideId session)
       (Session.metadata_userId session) (db (fst r))
     = inr (Participant.set_paid sessionId
              (num_or (Participant.amount_due p) 0) p)
  /\ (existsb (fun c => Nat.eqb (RideCode.ride_id c) (Participant.ride_id p))
              (ride_codes (db w)) = true ->
      ride_codes (db (fst r)) = ride_codes (db w))
  /\ (notification_outcome o = Stored ->
      exists n,
        notifications (db (fst r)) = (notifications (db w) ++ [n])%list
        /\ Notification.type n = "payment_received"
        /\ Notification.user_id n = Session.metadata_userId session
        /\ Notification.meta n
           = Some [("rideCode", JStr (generateRideCode (Math_random o) 6))])
  /\ (history_outcome o = Stored ->
      exists h,
        history (db (fst r)) = (history (db w) ++ [h])%list
        /\ HistoryEntry.action h = "payment"
        /\ HistoryEntry.user_id h = Session.metadata_userId session).
Proof.
  intros Hret Hpaid Hdone Hsel. cbv zeta.
  rewrite (poll_run _ o _ _ w Hret Hpaid), Hsel. cbn [fst snd].
  destruct (settle_participant_tables o sessionId
              (Session.payment_intent session)
              (Session.metadata_rideId session)
              (Session.metadata_userId session) p w)
    as (Hp & Hy & _).
  destruct (settle_participant_audit o sessionId
              (Session.payment_intent session)
              (Session.metadata_rideId session)
              (Session.metadata_userId session) p w)
    as (Hn & Hh).
  split; [reflexivity |]. split; [exact Hy |]. split.
  { rewrite Hy, map_map. apply map_ext_in. intros q Hq.
    destruct (String.eqb (Payment.stripe_session_id q) sessionId) eqn:E;
      [| reflexivity].
    cbn [Payment.status Payment.set_completed].
    unfold payment_completed in Hdone.
    apply andb_true_iff in Hdone as [_ Hdone].
    rewrite forallb_forall in Hdone. specialize (Hdone q Hq).
    rewrite E in Hdone. simpl in Hdone. apply String.eqb_eq in Hdone.
    now symmetry. }
  split; [exact Hp |]. split.
  { rewrite (participants_select_after_mark _ _ _ _ _ _ _ _ Hp Hsel).
    now rewrite Nat.eqb_refl. }
  split.
  { intros Hcode.
    destruct (participants_select_ride _ _ _ _ Hsel) as [Hr _].
    rewrite Hr. now apply settle_participant_codes. }
  split; assumption.
Qed.

Lemma poll_of_completed_session_settles_again_witness :
  let p := Participant.mk 103 100 2 "ADHKOSVZ" (Some 500%Z) 500%Z true
                          (Some "cs_test_1") None in
  let r := run (stripe_session Sample.stripe Sample.oracle_2 "cs_test_1")
               Sample.settled in
  snd r = inr (res_json (json_session_completed (Some 100) (Some 2)))
  /\ map Payment.status (payments (db (fst r)))
     = map Payment.status (payments (db Sample.settled))
  /\ participants_select_single (Some 100) (Some 2) (db (fst r)) = inr p
  /\ ride_codes (db (fst r)) = ride_codes (db Sample.settled)
  /\ (exists n,
        notifications (db (fst r))
        = (notifications (db Sample.settled) ++ [n])%list
        /\ Notification.type n = "payment_received"
        /\ Notification.user_id n = Some 2
        /\ Notification.meta n = Some [("rideCode", JStr "SSSSSS")])
  /\ (exists h,
        history (db (fst r)) = (history (db Sample.settled) ++ [h])%list
        /\ HistoryEntry.action h = "payment"
        /\ HistoryEntry.user_id h = Some 2).
Proof.
  intros p.
  destruct (poll_of_completed_session_settles_again Sample.stripe
              Sample.oracle_2 "cs_test_1" Sample.session_1 p
              Sample.settled eq_refl eq_refl eq_refl eq_refl)
    as (Hr & _ & Hs & _ & Hp & Hc & Hn & Hh).
  split; [exact Hr |]. split; [exact Hs |]. split; [exact Hp |].
  split; [exact (Hc eq_refl) |].
  split; [exact (Hn eq_refl) | exact (Hh eq_refl)].
Defined.

(** C1 fails as stated: the Payment of the session is already completed,
    and a second settle invocation for it is not a no-op.  It appends a
    second payment_received notification, which carries a newly generated
    code, and a second payment history entry. *)
Lemma resettle_emits_again :
  map Payment.status (payments (db Sample.settled)) = ["completed"]
  /\ map Payment.stripe_session_id (payments (db Sample.settled)) = ["cs_test_1"]
  /\ let w2 := fst (run (settle Sample.stripe Sample.process_env Sample.oracle_2
                           (Poll "cs_test_1")) Sample.settled) in
     map Notification.meta
       (filter (fun n => String.eqb (Notification.type n) "payment_received")
               (notifications (db Sample.settled)))
     = [Some [("rideCode", JStr "ADHKOS")]]
     /\ map Notification.meta
          (filter (fun n => String.eqb (Notification.type n) "payment_received")
                  (notifications (db w2)))
        = [Some [("rideCode", JStr "ADHKOS")]; Some [("rideCode", JStr "SSSSSS")]]
     /\ List.length (history (db Sample.settled)) = 1
     /\ List.length (history (db w2)) = 2.
Proof. repeat split. Qed.

(** ** The join handler, case by case *)

Lemma world_eta (w : World) : mkWorld (db w) (console w) = w.
Proof. destruct w; reflexivity. Qed.

Lemma single_filter_in {A : Type} (P : A -> bool) (l : list A) (x : A) :
  single (filter P l) = inr x -> In x l /\ P x = true.
Proof.
  intros H. assert (Hin : In x (filter P l)).
  { destruct (filter P l) as [| a [| b t]]; try discriminate.
    injection H as ->. now left. }
  now apply filter_In in Hin.
Qed.

Lemma rides_select_single_found (rideId : uuid) (s : Store) (ride : Ride.row) :
  rides_select_single (Some rideId) s = inr ride ->
  In ride (rides s) /\ Ride.id ride = rideId /\ ride_exists rideId s = true.
Proof.
  unfold rides_select_single, ride_exists. intros H.
  apply single_filter_in in H as [Hin Hid]. simpl in Hid.
  apply Nat.eqb_eq in Hid. repeat split; auto.
  apply existsb_exists. exists ride. split; auto. now apply Nat.eqb_eq.
Qed.

Lemma participants_insert_accepts (ride_id user_id : uuid) (join_code : string)
    (amount_due : Z) (paid : bool) (s : Store) :
  ride_exists ride_id s = true ->
  mem_uuid user_id (auth_users s) = true ->
  is_participant ride_id user_id s = false ->
  participants_insert ride_id user_id join_code amount_due paid s
  = (let p := Participant.mk (next_uuid s) ride_id user_id join_code
                             (Some amount_due) 0%Z paid None None in
     (bump_uuid (with_ride_participants (ride_participants s ++ [p])%list s),
      inr [p])).
Proof.
  unfold participants_insert, is_participant. intros -> -> ->. reflexivity.
Qed.

Lemma participants_insert_outcome (ride_id user_id : uuid) (join_code : string)
    (amount_due : Z) (paid : bool) (s : Store) :
  (exists e, participants_insert ride_id user_id join_code amount_due paid s
             = (s, inl e))
  \/ (ride_exists ride_id s = true
      /\ mem_uuid user_id (auth_users s) = true
      /\ is_participant ride_id user_id s = false).
Proof.
  unfold participants_insert, is_participant.
  destruct (ride_exists ride_id s); simpl; [| left; eauto].
  destruct (mem_uuid user_id (auth_users s)); simpl; [| left; eauto].
  destruct (existsb _ (ride_participants s)); [left; eauto | right; auto].
Qed.

Lemma rides_join_not_found (o : Oracle) (rideId userId : uuid)
    (amountDue : option Z) (w : World) (e : PgError) :
  rides_select_single (Some rideId) (db w) = inl e ->
  run (rides_join o (JoinBody.mk (Some rideId) (Some userId) amountDue)) w
  = (w, inr (res_status 404 (json_error "Ride not found"))).
Proof.
  intros H. unfold rides_join. simpl. rewrite H. reflexivity.
Qed.

Lemma rides_join_no_seats (o : Oracle) (rideId userId : uuid)
    (amountDue : option Z) (w : World) (ride : Ride.row) :
  rides_select_single (Some rideId) (db w) = inr ride ->
  (Ride.seats_left ride <= 0)%Z ->
  run (rides_join o (JoinBody.mk (Some rideId) (Some userId) amountDue)) w
  = (w, inr (res_status 400 (json_error "No seats available"))).
Proof.
  intros H Hs. unfold rides_join. simpl. rewrite H.
  apply Z.leb_le in Hs. rewrite Hs. reflexivity.
Qed.

Lemma rides_join_refused (o : Oracle) (rideId userId : uuid)
    (amountDue : option Z) (w : World) (ride : Ride.row) (e : PgError) :
  rides_select_single (Some rideId) (db w) = inr ride ->
  (0 < Ride.seats_left ride)%Z ->
  participants_insert rideId userId (generateRideCode (Math_random o) 8)
    (num_or amountDue (Ride.price_per_seat ride)) false (db w)
  = (db w, inl e) ->
  run (rides_join o (JoinBody.mk (Some rideId) (Some userId) amountDue)) w
  = (w, inr (res_status 500 (json_error "Failed to join ride"))).
Proof.
  intros H Hs Hi. unfold rides_join. simpl. rewrite H.
  apply Z.leb_gt in Hs. rewrite Hs. simpl. rewrite Hi. simpl.
  now rewrite world_eta.
Qed.

(** A join that passes the guards commits both writes, and only then runs
    into the call of [createHistoryEntry]. *)
Lemma rides_join_commits (o : Oracle) (rideId userId : uuid)
    (amountDue : option Z) (w : World) (ride : Ride.row) :
  rides_select_single (Some rideId) (db w) = inr ride ->
  (0 < Ride.seats_left ride)%Z ->
  mem_uuid userId (auth_users (db w)) = true ->
  is_participant rideId userId (db w) = false ->
  let r := run (rides_join o (JoinBody.mk (Some rideId) (Some userId) amountDue)) w in
  snd r = inr (res_status 500 (json_error "Failed to join ride"))
  /\ ride_participants (db (fst r))
     = (ride_participants (db w)
        ++ [Participant.mk (next_uuid (db w)) rideId userId
              (generateRideCode (Math_random o) 8)
              (Some (num_or amountDue (Ride.price_per_seat ride)))
              0%Z false None None])%list
  /\ rides (db (fst r))
     = map (fun x => if Nat.eqb (Ride.id x) rideId
                     then Ride.set_seats_left (Ride.seats_left ride - 1)%Z x
                     else x) (rides (db w))
  /\ auth_users (db (fst r)) = auth_users (db w)
  /\ next_uuid (db w) < next_uuid (db (fst r)).
Proof.
  intros H Hs Hu Hp.
  destruct (rides_select_single_found _ _ _ H) as (_ & _ & Hex).
  unfold rides_join. simpl. rewrite H.
  apply Z.leb_gt in Hs. rewrite Hs. simpl.
  rewrite (participants_insert_accepts _ _ _ _ _ _ Hex Hu Hp). simpl.
  unfold rides_update_seats_left, createNotification, createHistoryEntry,
    notifications_insert. simpl.
  destruct (notification_outcome o); simpl; repeat split; auto; lia.
Qed.

(** C7 (as amended).  The join handler does not read the lifecycle status
    of the ride.  For every join against an existing ride whose status is
    not "active" and which has a seat left, by a known user who holds no
    participant row for it, with an amount due (the request's, or else the
    ride's price) that fits the integer column, the participant row is
    inserted and seats_left is lowered by one, as for an active ride. *)
Theorem join_commits_on_inactive_ride (o : Oracle) (rideId userId : uuid)
    (amountDue : option Z) (w : World) (ride : Ride.row) :
  rides_select_single (Some rideId) (db w) = inr ride ->
  Ride.status ride <> "active" ->
  (0 < Ride.seats_left ride)%Z ->
  mem_uuid userId (auth_users (db w)) = true ->
  is_participant rideId userId (db w) = false ->
  in_int4 (num_or amountDue (Ride.price_per_seat ride)) = true ->
  let w' := fst (run (rides_join o (JoinBody.mk (Some rideId) (Some userId)
                                                amountDue)) w) in
  ride_participants (db w')
  = (ride_participants (db w)
     ++ [Participant.mk (next_uuid (db w)) rideId userId
           (generateRideCode (Math_random o) 8)
           (Some (num_or amountDue (Ride.price_per_seat ride)))
           0%Z false None None])%list
  /\ rides (db w')
     = map (fun x => if Nat.eqb (Ride.id x) rideId
                     then Ride.set_seats_left (Ride.seats_left ride - 1)%Z x
                     else x) (rides (db w)).
Proof.
  intros H _ Hs Hu Hp _.
  destruct (rides_join_commits o rideId userId amountDue w ride H Hs Hu Hp)
    as (_ & Hparts & Hrides & _).
  split; assumption.
Qed.

Lemma join_commits_on_inactive_ride_witness :
  let w' := fst (run (rides_join Sample.oracle_2 (JoinBody.mk (Some 100) (Some 2)
                                                   None)) Sample.cancelled) in
  ride_participants (db w')
  = (ride_participants (db Sample.cancelled)
     ++ [Participant.mk (next_uuid (db Sample.cancelled)) 100 2
           (generateRideCode (Math_random Sample.oracle_2) 8)
           (Some (num_or None 500%Z))
           0%Z false None None])%list
  /\ rides (db w')
     = map (fun x => if Nat.eqb (Ride.id x) 100
                     then Ride.set_seats_left (2 - 1)%Z x
                     else x) (rides (db Sample.cancelled)).
Proof.
  apply (join_commits_on_inactive_ride Sample.oracle_2 100 2 None
           Sample.cancelled
           (Ride.mk 100 1 "Airport run" "Pune" "Mumbai" "2026-01-05T06:00:00Z"
                    2 2 500 "ADHKOS" "cancelled")).
  - reflexivity.
  - discriminate.
  - reflexivity.
  - reflexivity.
  - reflexivity.
  - reflexivity.
Defined.

(** C7 fails as stated: ride 100 is cancelled, and a join against it
    inserts a participant row and takes a seat. *)
Lemma join_on_cancelled_ride_takes_a_seat :
  map Ride.status (rides (db Sample.cancelled)) = ["cancelled"]
  /\ map Ride.seats_left (rides (db Sample.cancelled)) = [2%Z]
  /\ ride_participants (db Sample.cancelled) = []
  /\ let w' := fst (run (rides_join Sample.oracle_2 (Sample.join_req 2))
                        Sample.cancelled) in
     map Participant.user_id (ride_participants (db w')) = [2]
     /\ map Ride.seats_left (rides (db w')) = [1%Z].
Proof. repeat split. Qed.

(** ** The ride handlers never answer with success *)

Lemma rides_join_never_200 (o : Oracle) (req : JoinBody.t) (w : World) :
  exists r, snd (run (rides_join o req) w) = inr r /\ status_code r <> 200.
Proof.
  destruct req as [[rideId |] [userId |] amountDue];
    try (eexists; split; [reflexivity | discriminate]).
  destruct (rides_select_single (Some rideId) (db w)) as [e | ride] eqn:H.
  { rewrite (rides_join_not_found _ _ _ _ _ _ H).
    eexists; split; [reflexivity | discriminate]. }
  destruct (Z.leb_spec (Ride.seats_left ride) 0) as [Hs | Hs].
  { rewrite (rides_join_no_seats _ _ _ _ _ _ H Hs).
    eexists; split; [reflexivity | discriminate]. }
  destruct (participants_insert_outcome rideId userId
              (generateRideCode (Math_random o) 8)
              (num_or amountDue (Ride.price_per_seat ride)) false (db w))
    as [[e He] | (Hex & Hu & Hp)].
  { rewrite (rides_join_refused _ _ _ _ _ _ _ H Hs He).
    eexists; split; [reflexivity | discriminate]. }
  destruct (rides_join_commits o rideId userId amountDue w ride H Hs Hu Hp)
    as (Hr & _).
  eexists; split; [exact Hr | discriminate].
Qed.

(** C3, evaluated.  User 2 joins ride 100, which has two seats.  Both
    business writes are made (the participant row exists and seats_left is
    1), the notification is stored, and the caller is answered 500 "Failed
    to join ride": the handler calls [createHistoryEntry], which the module
    does not declare, and the reference error reaches the handler's
    [catch].  The same happens when the audit appends fail, and in ride
    creation. *)
Theorem join_with_committed_writes_answers_500 :
  let r := run (rides_join Sample.oracle_1 (Sample.join_req 2)) Sample.created in
  map Participant.user_id (ride_participants (db (fst r))) = [2]
  /\ map Ride.seats_left (rides (db (fst r))) = [1%Z]
  /\ map Notification.type (notifications (db (fst r)))
     = ["ride_created"; "ride_joined"]
  /\ history (db (fst r)) = []
  /\ snd r = inr (res_status 500 (json_error "Failed to join ride"))
  /\ snd (run (rides_join Sample.oracle_3 (Sample.join_req 2)) Sample.created)
     = inr (res_status 500 (json_error "Failed to join ride"))
  /\ map Ride.seats_left
       (rides (db (fst (run (rides_create Sample.oracle_1 (Sample.create_req 2))
                            Sample.empty_world))))
     = [2%Z]
  /\ snd (run (rides_create Sample.oracle_1 (Sample.create_req 2))
              Sample.empty_world)
     = inr (res_status 500 (json_error "Failed to create ride")).
Proof. repeat split. Qed.

(** ** Joins one after the other *)






(** ** The creation handler, case by case *)

Lemma complete_create_fields (req : CreateBody.t) :
  complete_create req = true ->
  exists userId title origin destination departureTime totalSeats pricePerSeat,
    CreateBody.userId req = Some userId
    /\ truthy_str (CreateBody.title req) = Some title
    /\ truthy_str (CreateBody.origin req) = Some origin
    /\ truthy_str (CreateBody.destination req) = Some destination
    /\ truthy_str (CreateBody.departureTime req) = Some departureTime
    /\ truthy_num (CreateBody.totalSeats req) = Some totalSeats
    /\ CreateBody.totalSeats req = Some totalSeats
    /\ CreateBody.pricePerSeat req = Some pricePerSeat.
Proof.
  unfold complete_create, falsy_id, falsy_str, falsy_num, truthy_str, truthy_num.
  destruct req as [[u |] [t |] [og |] [d |] [dt |] [n |] [p |]]; simpl;
    try discriminate;
    rewrite ?andb_false_r; try discriminate.
  destruct (String.eqb t ""), (String.eqb og ""), (String.eqb d ""),
    (String.eqb dt ""), (n =? 0)%Z; simpl; try discriminate.
  intros _. repeat eexists.
Qed.

Lemma incomplete_create_rejected (o : Oracle) (req : CreateBody.t) (w : World) :
  complete_create req = false ->
  run (rides_create o req) w
  = (w, inr (res_status 400 (json_error "Missing required fields"))).
Proof.
  unfold complete_create, falsy_id, falsy_str, falsy_num, rides_create,
    truthy_str, truthy_num.
  destruct req as [[u |] [t |] [og |] [d |] [dt |] [n |] [p |]]; simpl;
    try reflexivity;
    destruct (String.eqb t ""); try reflexivity;
    destruct (String.eqb og ""); try reflexivity;
    destruct (String.eqb d ""); try reflexivity;
    destruct (String.eqb dt ""); try reflexivity;
    destruct (n =? 0)%Z; try reflexivity; simpl; discriminate.
Qed.

Lemma rides_insert_outcome (created_by : uuid) (title origin destination
    departure_time : string) (total_seats seats_left price_per_seat : Z)
    (ride_code status : string) (s : Store) :
  (exists e, rides_insert created_by title origin destination departure_time
               total_seats seats_left price_per_seat ride_code status s
             = (s, inl e))
  \/ (existsb (fun r => String.eqb (Ride.ride_code r) ride_code) (rides s) = false
      /\ rides_insert created_by title origin destination departure_time
           total_seats seats_left price_per_seat ride_code status s
         = (let r := Ride.mk (next_uuid s) created_by title origin destination
                             departure_time total_seats seats_left
                             price_per_seat ride_code status in
            (bump_uuid (with_rides (rides s ++ [r])%list s), inr [r]))).
Proof.
  unfold rides_insert.
  destruct (negb (mem_uuid created_by (auth_users s))); [left; eauto |].
  destruct (existsb _ (rides s)); [left; eauto | right; auto].
Qed.

(** C8 (as amended).  When the display code generated for a complete
    creation request collides with the unique ride-code column, the
    handler does not regenerate: it performs a single store action, the
    refused insert, answers 500 "Failed to create ride" and leaves the
    world as it was.  Under a store in which every attempt collides it
    therefore ends with an error after one attempt. *)
Theorem create_fails_on_code_collision (o : Oracle) (req : CreateBody.t)
    (w : World) :
  complete_create req = true ->
  display_code_collides o (db w) = true ->
  run (rides_create o req) w
  = (w, inr (res_status 500 (json_error "Failed to create ride")))
  /\ actions (rides_create o req) w = 1.
Proof.
  intros Hc Hcol. unfold display_code_collides in Hcol.
  destruct (complete_create_fields req Hc)
    as (u & t & og & d & dt & n & p & Hu & Ht & Hog & Hd & Hdt & Hn & _ & Hp).
  unfold rides_create. rewrite Hu, Ht, Hog, Hd, Hdt, Hn, Hp.
  destruct (rides_insert_outcome u t og d dt n n p
              (generateRideCode (Math_random o) 6) "active" (db w))
    as [[e He] | [Hfree _]].
  - simpl. rewrite He. simpl. rewrite world_eta. split; reflexivity.
  - rewrite Hfree in Hcol. discriminate.
Qed.

Lemma create_fails_on_code_collision_witness :
  run (rides_create Sample.oracle_1 (Sample.create_req 3)) Sample.created
  = (Sample.created, inr (res_status 500 (json_error "Failed to create ride")))
  /\ actions (rides_create Sample.oracle_1 (Sample.create_req 3)) Sample.created
     = 1.
Proof.
  apply (create_fails_on_code_collision Sample.oracle_1 (Sample.create_req 3)
           Sample.created).
  - reflexivity.
  - reflexivity.
Defined.

(** C8 fails as stated: the code ADHKOS drawn for the request is the
    display code of ride 100, and the creation is answered 500 after its
    one insert, with no ride added, although the same request with other
    draws is inserted. *)
Lemma create_does_not_retry_on_collision :
  display_code_collides Sample.oracle_1 (db Sample.created) = true
  /\ snd (run (rides_create Sample.oracle_1 (Sample.create_req 3)) Sample.created)
     = inr (res_status 500 (json_error "Failed to create ride"))
  /\ actions (rides_create Sample.oracle_1 (Sample.create_req 3)) Sample.created
     = 1
  /\ rides (db (fst (run (rides_create Sample.oracle_1 (Sample.create_req 3))
                         Sample.created)))
     = rides (db Sample.created)
  /\ map Ride.ride_code
       (rides (db (fst (run (rides_create Sample.oracle_2 (Sample.create_req 3))
                            Sample.created))))
     = ["ADHKOS"; "SSSSSS"].
Proof. repeat split. Qed.

(** ** What each handler does to rides and participant rows *)

Lemma rides_create_effect (o : Oracle) (req : CreateBody.t) (w : World) :
  let s' := db (fst (run (rides_create o req) w)) in
  s' = db w
  \/ exists r,
       rides s' = (rides (db w) ++ [r])%list
       /\ Ride.id r = next_uuid (db w)
       /\ Ride.seats_left r = Ride.total_seats r
       /\ CreateBody.totalSeats req = Some (Ride.total_seats r)
       /\ ride_participants s' = ride_participants (db w)
       /\ next_uuid (db w) < next_uuid s'.
Proof.
  destruct (complete_create req) eqn:Hc.
  2:{ left. now rewrite (incomplete_create_rejected o req w Hc). }
  destruct (complete_create_fields req Hc)
    as (u & t & og & d & dt & n & p & Hu & Ht & Hog & Hd & Hdt & Hn & Hn' & Hp).
  unfold rides_create. rewrite Hu, Ht, Hog, Hd, Hdt, Hn, Hp.
  destruct (rides_insert_outcome u t og d dt n n p
              (generateRideCode (Math_random o) 6) "active" (db w))
    as [[e He] | [_ Hok]].
  - left. simpl. rewrite He. reflexivity.
  - right. simpl. rewrite Hok.
    unfold createNotification, createHistoryEntry, notifications_insert.
    cbn [fst snd hd_error option_map Ride.id try_catch bind run on_db db
         console await_call].
    match goal with
    | |- context [ride_codes_insert ?a ?b ?s] =>
        pose proof (ride_codes_insert_frame a b s) as F;
        set (s1 := fst (ride_codes_insert a b s)) in *
    end.
    simpl in F. destruct F as (Fa & Fr & Fp & Fy & Fn & Fh & Fu).
    eexists. 
    destruct (notification_outcome o); simpl; rewrite Fr, Fp;
      (split; [reflexivity |]); simpl; repeat split; auto; lia.
Qed.

Lemma rides_join_effect (o : Oracle) (req : JoinBody.t) (w : World) :
  let s' := db (fst (run (rides_join o req) w)) in
  s' = db w
  \/ exists rideId ride p,
       rides_select_single (Some rideId) (db w) = inr ride
       /\ (0 < Ride.seats_left ride)%Z
       /\ rides s'
          = map (fun x => if Nat.eqb (Ride.id x) rideId
                          then Ride.set_seats_left (Ride.seats_left ride - 1)%Z x
                          else x) (rides (db w))
       /\ ride_participants s' = (ride_participants (db w) ++ [p])%list
       /\ Participant.ride_id p = rideId
       /\ next_uuid (db w) < next_uuid s'.
Proof.
  destruct req as [[rideId |] [userId |] amountDue]; try (left; reflexivity).
  destruct (rides_select_single (Some rideId) (db w)) as [e | ride] eqn:H.
  { left. now rewrite (rides_join_not_found _ _ _ _ _ _ H). }
  destruct (Z.leb_spec (Ride.seats_left ride) 0) as [Hs | Hs].
  { left. now rewrite (rides_join_no_seats _ _ _ _ _ _ H Hs). }
  destruct (participants_insert_outcome rideId userId
              (generateRideCode (Math_random o) 8)
              (num_or amountDue (Ride.price_per_seat ride)) false (db w))
    as [[e He] | (Hex & Hu & Hp)].
  { left. now rewrite (rides_join_refused _ _ _ _ _ _ _ H Hs He). }
  right.
  destruct (rides_join_commits o rideId userId amountDue w ride H Hs Hu Hp)
    as (_ & Hparts & Hrides & _ & Hnext).
  exists rideId, ride. eexists. repeat split; eauto.
Qed.

Lemma payments_insert_frame (user_id ride_id : uuid) (amount : Z)
    (currency stripe_session_id status : string) (metadata : jsonb) (s : Store) :
  let s' := fst (payments_insert user_id ride_id amount currency
                   stripe_session_id status metadata s) in
  rides s' = rides s /\ ride_participants s' = ride_participants s
  /\ next_uuid s <= next_uuid s'.
Proof.
  unfold payments_insert.
  destruct (negb (mem_uuid user_id (auth_users s))); simpl; [intuition lia |].
  destruct (negb (ride_exists ride_id s)); simpl; [intuition lia |].
  destruct (existsb _ (payments s)); simpl; intuition lia.
Qed.

Lemma checkout_effect (stripe : Stripe) (process_env : ProcessEnv)
    (req : CheckoutBody.t) (w : World) :
  let s' := db (fst (run (stripe_create_checkout_session stripe process_env req)
                         w)) in
  rides s' = rides (db w) /\ ride_participants s' = ride_participants (db w)
  /\ next_uuid (db w) <= next_uuid s'.
Proof.
  unfold stripe_create_checkout_session.
  destruct (CheckoutBody.rideId req) as [rid |]; [| simpl; auto].
  destruct (CheckoutBody.userId req) as [uid |]; [| simpl; auto].
  destruct (truthy_num (CheckoutBody.amount req)) as [amount |]; [| simpl; auto].
  cbn [await_provider bind try_catch run].
  destruct (checkout_sessions_create stripe _) as [e | session]; [simpl; auto |].
  cbn [await_db bind try_catch run on_db fst snd db].
  apply payments_insert_frame.
Qed.

Lemma settle_effect (stripe : Stripe) (process_env : ProcessEnv) (o : Oracle)
    (t : Trigger) (w : World) :
  let s' := db (fst (run (settle stripe process_env o t) w)) in
  rides s' = rides (db w)
  /\ map Participant.ride_id (ride_participants s')
     = map Participant.ride_id (ride_participants (db w))
  /\ next_uuid (db w) <= next_uuid s'.
Proof.
  destruct (completion stripe process_env t) as [[sid session] |] eqn:Hc.
  - rewrite (settle_run _ _ o _ _ _ w Hc).
    destruct (participants_select_single _ _ (db w)) as [e | p]; [simpl; auto |].
    cbn [fst].
    destruct (settle_participant_tables o sid (Session.payment_intent session)
                (Session.metadata_rideId session)
                (Session.metadata_userId session) p w)
      as (Hp & _ & Hr & _ & Hn).
    rewrite Hp, Hr, map_map. repeat split; auto.
    apply map_ext. intros q.
    destruct (Nat.eqb (Participant.id q) (Participant.id p)); reflexivity.
  - destruct t as [x | req]; cbn [settle].
    + rewrite poll_not_paid_db; [auto |].
      intros s Hret Hpaid. unfold completion in Hc. rewrite Hret, Hpaid in Hc.
      discriminate.
    + rewrite webhook_run. simpl. auto.
Qed.

(** ** The seat invariant *)

Lemma participants_count (rideId : uuid) (s : Store) :
  List.length (participants_of rideId s)
  = count_occ Nat.eq_dec (map Participant.ride_id (ride_participants s)) rideId.
Proof.
  unfold participants_of.
  induction (ride_participants s) as [| p l IH]; simpl; auto.
  destruct (Nat.eq_dec (Participant.ride_id p) rideId) as [E | E].
  - apply Nat.eqb_eq in E. rewrite E. simpl. now rewrite IH.
  - apply Nat.eqb_neq in E. now rewrite E.
Qed.

Lemma count_occ_single (a b : nat) :
  count_occ Nat.eq_dec [a] b = if Nat.eqb a b then 1 else 0.
Proof.
  simpl. destruct (Nat.eq_dec a b) as [E | E].
  - apply Nat.eqb_eq in E. now rewrite E.
  - apply Nat.eqb_neq in E. now rewrite E.
Qed.

Lemma same_id_same_ride (l : list Ride.row) (a b : Ride.row) :
  NoDup (map Ride.id l) -> In a l -> In b l -> Ride.id a = Ride.id b -> a = b.
Proof.
  induction l as [| x l IH]; simpl; intros Hnd Ha Hb E; [contradiction |].
  inversion Hnd as [| ? ? Hx Hl]; subst.
  destruct Ha as [-> | Ha], Hb as [-> | Hb]; auto.
  - exfalso. apply Hx. rewrite E. now apply in_map.
  - exfalso. apply Hx. rewrite <- E. now apply in_map.
Qed.

Lemma NoDup_snoc {A : Type} (l : list A) (x : A) :
  NoDup l -> ~ In x l -> NoDup (l ++ [x]).
Proof.
  induction l as [| a l IH]; simpl; intros Hnd Hx.
  - constructor; [intros [] | constructor].
  - inversion Hnd as [| ? ? Ha Hl]; subst. constructor.
    + intros Hin. apply in_app_or in Hin as [Hin | [-> | []]]; auto.
    + apply IH; auto.
Qed.

Lemma serve_cons (stripe : Stripe) (process_env : ProcessEnv) (r : Request)
    (reqs : list Request) (w : World) :
  serve stripe process_env (r :: reqs) w
  = serve stripe process_env reqs (fst (run (handle stripe process_env r) w)).
Proof.
  unfold serve. cbn [map run_all].
  destruct (run (handle stripe process_env r) w) as [w1 r1]. cbn [fst].
  destruct (run_all (map (handle stripe process_env) reqs) w1) as [w2 rs].
  reflexivity.
Qed.

(** *** One ride at a time *)

Lemma seats_claimed_same (start : Store) (r r' : Ride.row) :
  Ride.id r' = Ride.id r -> Ride.total_seats r' = Ride.total_seats r ->
  seats_claimed start r' -> seats_claimed start r.
Proof.
  unfold seats_claimed. intros Hid Hts [(r0 & Hin & H0 & Hc) | [Hn Hp]].
  - left. exists r0. split; [exact Hin | split; [congruence | exact Hc]].
  - right. rewrite <- Hid, <- Hts. auto.
Qed.

Lemma seats_kept_start (start : Store) :
  well_keyed start -> seats_kept start start.
Proof.
  intros Hk. split; [exact Hk | split; [lia |]].
  destruct Hk as (Hnd & Hrb & _).
  intros r Hin [(r0 & Hin0 & Hid & Hc) | [Hn _]].
  - now rewrite <- (same_id_same_ride (rides start) r0 r Hnd Hin0 Hin Hid).
  - rewrite Forall_forall in Hrb.
    specialize (Hrb (Ride.id r) (in_map Ride.id _ _ Hin)). lia.
Qed.

Lemma seats_kept_frame (start s s' : Store) :
  rides s' = rides s ->
  map Participant.ride_id (ride_participants s')
  = map Participant.ride_id (ride_participants s) ->
  next_uuid s <= next_uuid s' ->
  seats_kept start s -> seats_kept start s'.
Proof.
  intros Hr Hp Hn ((Hnd & Hrb & Hpb) & Hs & Hinv).
  split; [| split; [lia |]].
  - unfold well_keyed. rewrite Hr, Hp. repeat split; auto.
    + eapply Forall_impl; [| exact Hrb]. simpl. intros; lia.
    + eapply Forall_impl; [| exact Hpb]. simpl. intros; lia.
  - intros r Hin Hcl. rewrite Hr in Hin. specialize (Hinv r Hin Hcl).
    unfold seats_consistent in *.
    rewrite participants_count, Hp, <- participants_count. exact Hinv.
Qed.

Lemma seats_kept_after_create (start s s' : Store) (r : Ride.row) :
  well_keyed start ->
  rides s' = (rides s ++ [r])%list ->
  Ride.id r = next_uuid s ->
  Ride.seats_left r = Ride.total_seats r ->
  ride_participants s' = ride_participants s ->
  next_uuid s < next_uuid s' ->
  seats_kept start s -> seats_kept start s'.
Proof.
  intros Hstart Hr Hid Hsl Hp Hn ((Hnd & Hrb & Hpb) & Hs & Hinv).
  assert (Hfresh : count_occ Nat.eq_dec
                     (map Participant.ride_id (ride_participants s))
                     (next_uuid s) = 0).
  { apply count_occ_not_In. intros Hin.
    rewrite Forall_forall in Hpb. specialize (Hpb _ Hin). lia. }
  split; [| split; [lia |]].
  - unfold well_keyed. rewrite Hr, Hp, map_app. simpl. repeat split.
    + apply NoDup_snoc; auto. intros Hin.
      rewrite Forall_forall in Hrb. specialize (Hrb _ Hin). lia.
    + apply Forall_app. split.
      * eapply Forall_impl; [| exact Hrb]. simpl. intros; lia.
      * constructor; [lia | constructor].
    + eapply Forall_impl; [| exact Hpb]. simpl. intros; lia.
  - intros x Hin Hcl. rewrite Hr in Hin. apply in_app_or in Hin.
    unfold seats_consistent. rewrite participants_count, Hp.
    destruct Hin as [Hin | [<- | []]].
    + rewrite <- participants_count. exact (Hinv x Hin Hcl).
    + destruct Hcl as [(r0 & Hin0 & Hid0 & _) | [_ Hpos]].
      * destruct Hstart as (_ & Hsb & _). rewrite Forall_forall in Hsb.
        specialize (Hsb (Ride.id r0) (in_map Ride.id _ _ Hin0)). lia.
      * rewrite Hid, Hfresh, Hsl. simpl. lia.
Qed.

Lemma seats_kept_after_join (start s s' : Store) (rideId : uuid)
    (ride : Ride.row) (p : Participant.row) :
  rides_select_single (Some rideId) s = inr ride ->
  (0 < Ride.seats_left ride)%Z ->
  rides s' = map (fun x => if Nat.eqb (Ride.id x) rideId
                           then Ride.set_seats_left (Ride.seats_left ride - 1)%Z x
                           else x) (rides s) ->
  ride_participants s' = (ride_participants s ++ [p])%list ->
  Participant.ride_id p = rideId ->
  next_uuid s < next_uuid s' ->
  seats_kept start s -> seats_kept start s'.
Proof.
  intros Hsel Hpos Hr Hp Hpid Hn ((Hnd & Hrb & Hpb) & Hs & Hinv).
  destruct (rides_select_single_found _ _ _ Hsel) as (Hin & Hid & _).
  assert (Hids : map Ride.id (rides s') = map Ride.id (rides s)).
  { rewrite Hr, map_map. apply map_ext. intros x.
    destruct (Nat.eqb (Ride.id x) rideId); reflexivity. }
  split; [| split; [lia |]].
  - unfold well_keyed. rewrite Hids, Hp, map_app. simpl. repeat split; auto.
    + eapply Forall_impl; [| exact Hrb]. simpl. intros; lia.
    + apply Forall_app. split.
      * eapply Forall_impl; [| exact Hpb]. simpl. intros; lia.
      * constructor; [| constructor]. rewrite Hpid, <- Hid.
        rewrite Forall_forall in Hrb.
        assert (Ride.id ride < next_uuid s)
          by (apply Hrb; now apply in_map).
        lia.
  - intros x Hx Hcl. rewrite Hr in Hx. apply in_map_iff in Hx as (x0 & <- & Hx0).
    assert (Hcl0 : seats_claimed start x0).
    { revert Hcl. apply seats_claimed_same;
        destruct (Nat.eqb (Ride.id x0) rideId); reflexivity. }
    destruct (Hinv x0 Hx0 Hcl0) as [Hb Hc]. rewrite participants_count in Hc.
    unfold seats_consistent.
    destruct (Nat.eqb (Ride.id x0) rideId) eqn:E.
    + apply Nat.eqb_eq in E.
      assert (x0 = ride) as ->
        by (apply (same_id_same_ride (rides s)); auto; congruence).
      cbn [Ride.id Ride.seats_left Ride.total_seats Ride.set_seats_left].
      rewrite participants_count, Hp, map_app, count_occ_app. cbn [map].
      rewrite count_occ_single.
      rewrite Hpid, <- Hid, Nat.eqb_refl. unfold uuid in *. lia.
    + rewrite participants_count, Hp, map_app, count_occ_app. cbn [map].
      rewrite count_occ_single.
      rewrite Hpid, Nat.eqb_sym, E. unfold uuid in *. lia.
Qed.

Lemma handle_keeps_seats (stripe : Stripe) (process_env : ProcessEnv)
    (start : Store) (r : Request) (w : World) :
  well_keyed start ->
  seats_kept start (db w) ->
  seats_kept start (db (fst (run (handle stripe process_env r) w))).
Proof.
  intros Hstart Hinv. destruct r as [req | o sid | o req | o req | o req];
    cbn [handle].
  - destruct (checkout_effect stripe process_env req w) as (Hr & Hp & Hn).
    apply (seats_kept_frame start (db w)); auto. now rewrite Hp.
  - destruct (settle_effect stripe process_env o (Poll sid) w) as (Hr & Hp & Hn).
    apply (seats_kept_frame start (db w)); auto.
  - destruct (settle_effect stripe process_env o (Push req) w) as (Hr & Hp & Hn).
    apply (seats_kept_frame start (db w)); auto.
  - destruct (rides_create_effect o req w)
      as [E | (x & Hr & Hid & Hsl & Hts & Hp & Hn)].
    + cbv zeta in E. now rewrite E.
    + apply (seats_kept_after_create start (db w) _ x); auto.
  - destruct (rides_join_effect o req w)
      as [E | (rid & ride & p & Hsel & Hs & Hr & Hp & Hpid & Hn)].
    + cbv zeta in E. now rewrite E.
    + apply (seats_kept_after_join start (db w) _ rid ride p); auto.
Qed.

Lemma serve_keeps_seats (stripe : Stripe) (process_env : ProcessEnv)
    (start : Store) (reqs : list Request) (w : World) :
  well_keyed start ->
  seats_kept start (db w) ->
  seats_kept start (db (serve stripe process_env reqs w)).
Proof.
  intros Hstart. revert w. induction reqs as [| r reqs IH]; intros w Hinv.
  - exact Hinv.
  - rewrite serve_cons. apply IH.
    now apply handle_keeps_seats.
Qed.

(** C4 (as amended).  Whatever requests are served one after the other
    from a well-keyed store, every ride of the store they lead to that was
    created on the way with at least one seat, or that was in the store at
    the start and satisfied the invariant there, satisfies
    0 <= seats_left <= total_seats and has as many participant rows as
    total_seats - seats_left.  Creation establishes it (seats_left is
    total_seats and the ride has no participant row) and every join keeps
    it, whether it commits or fails; what becomes of the other rides, among
    them those created with a negative number of seats, does not bear on
    it. *)
Theorem seats_consistent_ride_by_ride (stripe : Stripe)
    (process_env : ProcessEnv) (reqs : list Request) (w : World)
    (r : Ride.row) :
  well_keyed (db w) ->
  In r (rides (db (serve stripe process_env reqs w))) ->
  seats_claimed (db w) r ->
  seats_consistent (db (serve stripe process_env reqs w)) r.
Proof.
  intros Hk Hin Hcl.
  destruct (serve_keeps_seats stripe process_env (db w) reqs w Hk
              (seats_kept_start (db w) Hk)) as (_ & _ & H).
  exact (H r Hin Hcl).
Qed.

Lemma seats_consistent_ride_by_ride_witness :
  seats_consistent
    (db (serve Sample.stripe Sample.process_env
           [POST_create Sample.oracle_1 (Sample.create_req (-2));
            POST_create Sample.oracle_2 (Sample.create_req 2);
            POST_join Sample.oracle_1 (JoinBody.mk (Some 103) (Some 2) None);
            POST_join Sample.oracle_2 (JoinBody.mk (Some 100) (Some 3) None);
            POST_join Sample.oracle_2 (JoinBody.mk (Some 103) (Some 3) None);
            GET_session Sample.oracle_2 "cs_test_1";
            POST_join Sample.oracle_3 (JoinBody.mk (Some 103) (Some 4) None)]
           Sample.empty_world))
    (Ride.mk 103 1 "Airport run" "Pune" "Mumbai" "2026-01-05T06:00:00Z"
             2 0 500 "SSSSSS" "active").
Proof.
  apply (seats_consistent_ride_by_ride Sample.stripe Sample.process_env
           [POST_create Sample.oracle_1 (Sample.create_req (-2));
            POST_create Sample.oracle_2 (Sample.create_req 2);
            POST_join Sample.oracle_1 (JoinBody.mk (Some 103) (Some 2) None);
            POST_join Sample.oracle_2 (JoinBody.mk (Some 100) (Some 3) None);
            POST_join Sample.oracle_2 (JoinBody.mk (Some 103) (Some 3) None);
            GET_session Sample.oracle_2 "cs_test_1";
            POST_join Sample.oracle_3 (JoinBody.mk (Some 103) (Some 4) None)]
           Sample.empty_world).
  - simpl. repeat split; constructor.
  - vm_compute. right. left. reflexivity.
  - right. split; [vm_compute; lia | reflexivity].
Defined.

(** C4 fails as stated: the creation handler accepts a request for -2
    seats, and the ride it inserts has seats_left = -2. *)
Lemma create_with_negative_seats_breaks_invariant :
  let w' := fst (run (rides_create Sample.oracle_1 (Sample.create_req (-2)))
                     Sample.empty_world) in
  map Ride.seats_left (rides (db w')) = [(-2)%Z]
  /\ ~ seat_invariant (db w').
Proof.
  split; [reflexivity |].
  intros H.
  destruct (H (Ride.mk 100 1 "Airport run" "Pune" "Mumbai"
                       "2026-01-05T06:00:00Z" (-2) (-2) 500 "ADHKOS" "active")
              (or_introl eq_refl)) as [[H0 _] _].
  simpl in H0. lia.
Qed.

(** ** The step semantics agrees with [run] *)

Lemma steps_reach_run {A : Type} (p : Prog A) (w : World) :
  exists n,
    interleave (repeat 0 n) [p] w
    = (fst (run p w),
       [match snd (run p w) with
        | inr a => Ret a
        | inl e => Throw e
        end]).
Proof.
  revert w. induction p as [a | e | X act k IH]; intros w.
  - exists 0. reflexivity.
  - exists 0. reflexivity.
  - destruct (act w) as [w' x] eqn:E. destruct (IH x w') as [n Hn].
    exists (S n). cbn [repeat interleave step_nth step run]. rewrite E.
    exact Hn.
Qed.

(** ** Ride creation never answers with success either *)

Lemma rides_create_never_200 (o : Oracle) (req : CreateBody.t) (w : World) :
  exists r, snd (run (rides_create o req) w) = inr r /\ status_code r <> 200.
Proof.
  destruct (complete_create req) eqn:Hc.
  2:{ rewrite (incomplete_create_rejected o req w Hc).
      eexists; split; [reflexivity | discriminate]. }
  destruct (complete_create_fields req Hc)
    as (u & t & og & d & dt & n & p & Hu & Ht & Hog & Hd & Hdt & Hn & _ & Hp).
  unfold rides_create. rewrite Hu, Ht, Hog, Hd, Hdt, Hn, Hp.
  destruct (rides_insert_outcome u t og d dt n n p
              (generateRideCode (Math_random o) 6) "active" (db w))
    as [[e He] | [_ Hok]].
  - simpl. rewrite He. eexists; split; [reflexivity | discriminate].
  - simpl. rewrite Hok.
    unfold createNotification, createHistoryEntry, notifications_insert.
    simpl. destruct (notification_outcome o); simpl;
      eexists; split; try reflexivity; discriminate.
Qed.

(* ================================================================== *)
(** * Further properties of the handlers *)
(* ================================================================== *)

(** ** Every code can be drawn *)

#[local] Arguments String.append : simpl nomatch.

Lemma draw_for_selects (c : ascii) :
  in_alphabet c = true ->
  ((0 <= draw_for c)%Q /\ (draw_for c < 1)%Q)
  /\ charAt chars
       (Math_floor (draw_for c * inject_Z (Z.of_nat (String.length chars)))%Q)
     = String c EmptyString.
Proof.
  destruct c as [[] [] [] [] [] [] [] []]; intros H;
    try discriminate H; vm_compute; repeat split; intros E; discriminate E.
Qed.

Lemma string_get_append_here (pre : string) (c : ascii) (rest : string) :
  String.get (String.length pre) (pre ++ String c rest) = Some c.
Proof. induction pre as [| d pre IH]; simpl; auto. Qed.

Lemma draws_for_here (pre : string) (c : ascii) (rest : string) :
  draws_for (pre ++ String c rest) (String.length pre) = draw_for c.
Proof. unfold draws_for. now rewrite string_get_append_here. Qed.

Lemma string_append_assoc (a b c : string) : ((a ++ b) ++ c)%string = (a ++ (b ++ c))%string.
Proof. induction a as [| d a IH]; simpl; [| rewrite IH]; reflexivity. Qed.

Lemma string_append_nil (a : string) : (a ++ "")%string = a.
Proof. induction a as [| d a IH]; simpl; [| rewrite IH]; reflexivity. Qed.

Lemma generateRideCode_loop_spells (rest : string) :
  forall pre code,
    string_forallb in_alphabet rest = true ->
    generateRideCode_loop (draws_for (pre ++ rest)) (String.length rest)
                          (String.length pre) code
    = (code ++ rest)%string.
Proof.
  induction rest as [| c rest IH]; intros pre code H; cbn [generateRideCode_loop String.length].
  - now rewrite string_append_nil.
  - simpl in H. apply andb_true_iff in H as [Hc Hrest].
    rewrite draws_for_here.
    destruct (draw_for_selects c Hc) as [_ ->].
    specialize (IH (pre ++ String c EmptyString)%string
                   (code ++ String c EmptyString)%string Hrest).
    rewrite string_length_append in IH. simpl in IH.
    rewrite Nat.add_1_r in IH.
    rewrite string_append_assoc in IH. simpl in IH.
    rewrite IH, string_append_assoc. reflexivity.
Qed.

(** The generator reaches every code over its alphabet: for a string of
    uppercase letters and digits there are draws of [Math.random], all in
    the interval from 0 to 1, on which the generator returns exactly that
    string. *)
Theorem every_code_can_be_generated (code : string) :
  string_forallb in_alphabet code = true ->
  (forall i, (0 <= draws_for code i)%Q /\ (draws_for code i < 1)%Q)
  /\ generateRideCode (draws_for code) (String.length code) = code.
Proof.
  intros H. split.
  - intros i. unfold draws_for.
    destruct (String.get i code) as [c |] eqn:E;
      [| split; [discriminate | reflexivity]].
    assert (Hc : in_alphabet c = true).
    { clear - H E. revert i E. induction code as [| d code IH]; intros i E;
        [discriminate |].
      simpl in H. apply andb_true_iff in H as [Hd Hrest].
      destruct i as [| i]; simpl in E.
      - now injection E as <-.
      - exact (IH Hrest i E). }
    exact (proj1 (draw_for_selects c Hc)).
  - unfold generateRideCode.
    exact (generateRideCode_loop_spells code "" "" H).
Qed.

Lemma every_code_can_be_generated_witness :
  (forall i, (0 <= draws_for "RIDE42" i)%Q /\ (draws_for "RIDE42" i < 1)%Q)
  /\ generateRideCode (draws_for "RIDE42") (String.length "RIDE42") = "RIDE42".
Proof.
  apply (every_code_can_be_generated "RIDE42"). reflexivity.
Defined.

#[local] Arguments String.append : simpl never.

(** ** The audit emitters *)

(** [createNotification] always returns to its caller.  When the insert is
    stored, exactly one unread row with the given fields is appended to
    the notifications table; when the store answers with an error the
    world is left as it was and nothing is logged; when the call rejects
    the store is left as it was and one line is written to the console. *)
Theorem createNotification_footprint (o : Oracle) (userId : option uuid)
    (type title body : string) (rideId : option uuid) (meta : option jsonb)
    (w : World) :
  let r := run (createNotification o userId type title body rideId meta) w in
  snd r = inr tt
  /\ match notification_outcome o with
     | Stored =>
         fst r
         = mkWorld
             (bump_uuid
                (with_notifications
                   (notifications (db w)
                    ++ [Notification.mk (next_uuid (db w)) userId type title
                                        body rideId meta false])%list
                   (db w)))
             (console w)
     | Refused _ => fst r = w
     | Rejected _ =>
         fst r = mkWorld (db w)
                         (console w ++ ["Error creating notification:"])%list
     end.
Proof.
  unfold createNotification, notifications_insert.
  destruct (notification_outcome o); simpl; split; auto.
  apply world_eta.
Qed.

(** [logUserAction] always returns to its caller.  When the insert is
    stored, exactly one row with the given fields is appended to the
    history table; when the store answers with an error the world is left
    as it was and nothing is logged; when the call rejects the store is
    left as it was and one line is written to the console. *)
Theorem logUserAction_footprint (o : Oracle) (userId : option uuid)
    (action : string) (rideId : option uuid) (meta : option jsonb) (w : World) :
  let r := run (logUserAction o userId action rideId meta) w in
  snd r = inr tt
  /\ match history_outcome o with
     | Stored =>
         fst r
         = mkWorld
             (bump_uuid
                (with_history
                   (history (db w)
                    ++ [HistoryEntry.mk (next_uuid (db w)) userId rideId action
                                        meta])%list
                   (db w)))
             (console w)
     | Refused _ => fst r = w
     | Rejected _ =>
         fst r = mkWorld (db w)
                         (console w ++ ["Error creating history entry:"])%list
     end.
Proof.
  unfold logUserAction, history_insert.
  destruct (history_outcome o); simpl; split; auto.
  apply world_eta.
Qed.

(** ** The checkout handler *)

#[local] Arguments checkout_params : simpl never.
#[local] Arguments toLowerCase : simpl never.
#[local] Arguments uuid_text : simpl never.

Lemma checkout_run (stripe : Stripe) (process_env : ProcessEnv)
    (req : CheckoutBody.t) (rideId userId : uuid) (amount : Z) (w : World) :
  CheckoutBody.rideId req = Some rideId ->
  CheckoutBody.userId req = Some userId ->
  truthy_num (CheckoutBody.amount req) = Some amount ->
  run (stripe_create_checkout_session stripe process_env req) w
  = match checkout_sessions_create stripe
            (checkout_params process_env req rideId userId amount) with
    | inl e =>
        (mkWorld (db w)
                 (console w ++ ["Error creating checkout session:"])%list,
         inr (res_status 500 (json_error "Failed to create checkout session")))
    | inr session =>
        (mkWorld
           (fst (payments_insert userId rideId amount
                   (match CheckoutBody.currency req with
                    | Some c => c
                    | None => "INR"
                    end)
                   (Session.id session) "pending"
                   [("quantity",
                     JNum (match CheckoutBody.quantity req with
                           | Some q => q
                           | None => 1%Z
                           end))] (db w)))
           (console w),
         inr (res_json (json_checkout (Session.url session) (Session.id session))))
    end.
Proof.
  intros Hr Hu Ha. unfold stripe_create_checkout_session.
  rewrite Hr, Hu, Ha. cbn [await_provider bind try_catch run].
  change (CheckoutParams.mk _ _ _ _ _ _ _ _ _)
    with (checkout_params process_env req rideId userId amount).
  destruct (checkout_sessions_create stripe _) as [e | session]; reflexivity.
Qed.

(** A checkout request that lacks the ride, the user or the amount, or
    whose amount is 0, is answered 400 "Missing required parameters"; the
    provider is not called and nothing is written. *)
Theorem checkout_missing_parameter (stripe : Stripe) (process_env : ProcessEnv)
    (req : CheckoutBody.t) (w : World) :
  CheckoutBody.rideId req = None \/ CheckoutBody.userId req = None
  \/ falsy_num (CheckoutBody.amount req) = true ->
  run (stripe_create_checkout_session stripe process_env req) w
  = (w, inr (res_status 400 (json_error "Missing required parameters")))
  /\ actions (stripe_create_checkout_session stripe process_env req) w = 0.
Proof.
  unfold stripe_create_checkout_session, falsy_num, truthy_num.
  destruct (CheckoutBody.rideId req), (CheckoutBody.userId req),
    (CheckoutBody.amount req) as [a |];
    intros [H | [H | H]]; try discriminate H; try (split; reflexivity).
  rewrite H. split; reflexivity.
Qed.

Lemma checkout_missing_parameter_witness :
  run (stripe_create_checkout_session Sample.stripe Sample.process_env
         (CheckoutBody.mk (Some 100) (Some 2) (Some 0%Z) None None None None))
      Sample.joined
  = (Sample.joined, inr (res_status 400 (json_error "Missing required parameters")))
  /\ actions (stripe_create_checkout_session Sample.stripe Sample.process_env
                (CheckoutBody.mk (Some 100) (Some 2) (Some 0%Z) None None None
                                 None))
             Sample.joined = 0.
Proof.
  apply (checkout_missing_parameter Sample.stripe Sample.process_env
           (CheckoutBody.mk (Some 100) (Some 2) (Some 0%Z) None None None None)
           Sample.joined).
  right. right. reflexivity.
Defined.

(** When the provider refuses to create the session, the checkout handler
    answers 500 "Failed to create checkout session", logs the error and
    writes no Payment row: the store is left as it was. *)
Theorem checkout_provider_failure (stripe : Stripe) (process_env : ProcessEnv)
    (req : CheckoutBody.t) (rideId userId : uuid) (amount : Z) (w : World)
    (e : Exn) :
  CheckoutBody.rideId req = Some rideId ->
  CheckoutBody.userId req = Some userId ->
  truthy_num (CheckoutBody.amount req) = Some amount ->
  checkout_sessions_create stripe
    (checkout_params process_env req rideId userId amount) = inl e ->
  let r := run (stripe_create_checkout_session stripe process_env req) w in
  db (fst r) = db w
  /\ console (fst r) = (console w ++ ["Error creating checkout session:"])%list
  /\ snd r = inr (res_status 500 (json_error "Failed to create checkout session")).
Proof.
  intros Hr Hu Ha He. cbv zeta.
  rewrite (checkout_run _ _ _ _ _ _ w Hr Hu Ha), He. repeat split.
Qed.

Lemma checkout_provider_failure_witness :
  let r := run (stripe_create_checkout_session
                  (mkStripe (fun _ => inl (StripeError "api_connection_error"))
                            (checkout_sessions_retrieve Sample.stripe)
                            (webhooks_constructEvent Sample.stripe))
                  Sample.process_env Sample.checkout_req) Sample.joined in
  db (fst r) = db Sample.joined
  /\ console (fst r)
     = (console Sample.joined ++ ["Error creating checkout session:"])%list
  /\ snd r = inr (res_status 500 (json_error "Failed to create checkout session")).
Proof.
  apply (checkout_provider_failure
           (mkStripe (fun _ => inl (StripeError "api_connection_error"))
                     (checkout_sessions_retrieve Sample.stripe)
                     (webhooks_constructEvent Sample.stripe))
           Sample.process_env Sample.checkout_req 100 2 500 Sample.joined
           (StripeError "api_connection_error")).
  - reflexivity.
  - reflexivity.
  - reflexivity.
  - reflexivity.
Defined.

Lemma payments_insert_accepts (user_id ride_id : uuid) (amount : Z)
    (currency stripe_session_id status : string) (metadata : jsonb) (s : Store) :
  mem_uuid user_id (auth_users s) = true ->
  ride_exists ride_id s = true ->
  has_payment stripe_session_id s = false ->
  payments_insert user_id ride_id amount currency stripe_session_id status
                  metadata s
  = (bump_uuid
       (with_payments
          (payments s
           ++ [Payment.mk (next_uuid s) user_id ride_id amount currency
                          stripe_session_id None status metadata])%list s),
     inr tt).
Proof.
  unfold payments_insert, has_payment. intros -> -> ->. reflexivity.
Qed.

Lemma payments_insert_refused (user_id ride_id : uuid) (amount : Z)
    (currency stripe_session_id status : string) (metadata : jsonb) (s : Store) :
  mem_uuid user_id (auth_users s) = false \/ ride_exists ride_id s = false
  \/ has_payment stripe_session_id s = true ->
  fst (payments_insert user_id ride_id amount currency stripe_session_id status
                       metadata s) = s.
Proof.
  unfold payments_insert, has_payment.
  destruct (mem_uuid user_id (auth_users s)); [| reflexivity].
  destruct (ride_exists ride_id s); [| reflexivity].
  destruct (existsb _ (payments s)); [reflexivity |].
  intros [H | [H | H]]; discriminate H.
Qed.

(** When the provider creates the session, for a known user, an existing
    ride, an amount that fits the integer column and a session identifier
    no Payment row carries yet, the checkout handler appends exactly one
    Payment row: pending, with the amount and the currency of the request
    ("INR" when the request names none), the session identifier of the
    provider and no payment intent.  It answers with the provider's
    redirect URL and session identifier and writes nothing else. *)
Theorem checkout_records_pending_payment (stripe : Stripe)
    (process_env : ProcessEnv) (req : CheckoutBody.t) (rideId userId : uuid)
    (amount : Z) (session : Session.t) (w : World) :
  CheckoutBody.rideId req = Some rideId ->
  CheckoutBody.userId req = Some userId ->
  truthy_num (CheckoutBody.amount req) = Some amount ->
  in_int4 amount = true ->
  checkout_sessions_create stripe
    (checkout_params process_env req rideId userId amount) = inr session ->
  mem_uuid userId (auth_users (db w)) = true ->
  ride_exists rideId (db w) = true ->
  has_payment (Session.id session) (db w) = false ->
  run (stripe_create_checkout_session stripe process_env req) w
  = (mkWorld
       (bump_uuid
          (with_payments
             (payments (db w)
              ++ [Payment.mk (next_uuid (db w)) userId rideId amount
                    (match CheckoutBody.currency req with
                     | Some c => c
                     | None => "INR"
                     end)
                    (Session.id session) None "pending"
                    [("quantity",
                      JNum (match CheckoutBody.quantity req with
                            | Some q => q
                            | None => 1%Z
                            end))]])%list
             (db w)))
       (console w),
     inr (res_json (json_checkout (Session.url session) (Session.id session)))).
Proof.
  intros Hr Hu Ha _ Hs Hk Hx Hf.
  rewrite (checkout_run _ _ _ _ _ _ w Hr Hu Ha), Hs.
  rewrite (payments_insert_accepts _ _ _ _ _ _ _ _ Hk Hx Hf). reflexivity.
Qed.

Lemma checkout_records_pending_payment_witness :
  run (stripe_create_checkout_session Sample.stripe Sample.process_env
         Sample.checkout_req) Sample.joined
  = (mkWorld
       (bump_uuid
          (with_payments
             (payments (db Sample.joined)
              ++ [Payment.mk (next_uuid (db Sample.joined)) 2 100 500 "INR"
                    "cs_test_1" None "pending" [("quantity", JNum 1)]])%list
             (db Sample.joined)))
       (console Sample.joined),
     inr (res_json (json_checkout (Session.url Sample.session_1) "cs_test_1"))).
Proof.
  apply (checkout_records_pending_payment Sample.stripe Sample.process_env
           Sample.checkout_req 100 2 500 Sample.session_1 Sample.joined).
  - reflexivity.
  - reflexivity.
  - reflexivity.
  - reflexivity.
  - reflexivity.
  - reflexivity.
  - reflexivity.
  - reflexivity.
Defined.

(** The checkout handler does not look at the answer of the payments
    insert.  When the store refuses the row (the user is unknown, the ride
    does not exist, or a Payment row already carries the session
    identifier), the world is left as it was and the caller is still
    answered 200 with the provider's redirect URL and session identifier. *)
Theorem checkout_answers_when_insert_refused (stripe : Stripe)
    (process_env : ProcessEnv) (req : CheckoutBody.t) (rideId userId : uuid)
    (amount : Z) (session : Session.t) (w : World) :
  CheckoutBody.rideId req = Some rideId ->
  CheckoutBody.userId req = Some userId ->
  truthy_num (CheckoutBody.amount req) = Some amount ->
  checkout_sessions_create stripe
    (checkout_params process_env req rideId userId amount) = inr session ->
  mem_uuid userId (auth_users (db w)) = false
  \/ ride_exists rideId (db w) = false
  \/ has_payment (Session.id session) (db w) = true ->
  run (stripe_create_checkout_session stripe process_env req) w
  = (w, inr (res_json (json_checkout (Session.url session) (Session.id session)))).
Proof.
  intros Hr Hu Ha Hs Hrefused.
  rewrite (checkout_run _ _ _ _ _ _ w Hr Hu Ha), Hs.
  rewrite (payments_insert_refused _ _ _ _ _ _ _ _ Hrefused).
  now rewrite world_eta.
Qed.

Lemma checkout_answers_when_insert_refused_witness :
  run (stripe_create_checkout_session Sample.stripe Sample.process_env
         Sample.checkout_req) Sample.checked_out
  = (Sample.checked_out,
     inr (res_json (json_checkout (Session.url Sample.session_1) "cs_test_1"))).
Proof.
  apply (checkout_answers_when_insert_refused Sample.stripe Sample.process_env
           Sample.checkout_req 100 2 500 Sample.session_1 Sample.checked_out).
  - reflexivity.
  - reflexivity.
  - reflexivity.
  - reflexivity.
  - right. right. reflexivity.
Defined.

(** ** The session handler and the webhook, off the settlement path *)

(** A poll for a session the provider does not report as paid is answered
    200 with the provider's payment status, and nothing is written. *)
Theorem poll_unpaid_reports_status (stripe : Stripe) (o : Oracle)
    (sessionId : string) (session : Session.t) (w : World) :
  checkout_sessions_retrieve stripe sessionId = inr session ->
  String.eqb (Session.payment_status session) "paid" = false ->
  run (stripe_session stripe o sessionId) w
  = (w, inr (res_json (json_session_status (Session.payment_status session)))).
Proof.
  intros Hs Hp. unfold stripe_session. rewrite Hs.
  cbn [await_provider bind try_catch run]. rewrite Hp. reflexivity.
Qed.

Lemma poll_unpaid_reports_status_witness :
  run (stripe_session
         (mkStripe (checkout_sessions_create Sample.stripe)
                   (fun _ => inr (Session.mk "cs_test_2" "" "unpaid" None
                                             (Some 100) (Some 3)))
                   (webhooks_constructEvent Sample.stripe))
         Sample.oracle_1 "cs_test_2") Sample.joined
  = (Sample.joined, inr (res_json (json_session_status "unpaid"))).
Proof.
  apply (poll_unpaid_reports_status
           (mkStripe (checkout_sessions_create Sample.stripe)
                     (fun _ => inr (Session.mk "cs_test_2" "" "unpaid" None
                                               (Some 100) (Some 3)))
                     (webhooks_constructEvent Sample.stripe))
           Sample.oracle_1 "cs_test_2"
           (Session.mk "cs_test_2" "" "unpaid" None (Some 100) (Some 3))
           Sample.joined).
  - reflexivity.
  - reflexivity.
Defined.

(** A poll for a session the provider cannot retrieve is answered 500
    "Failed to retrieve session"; the error is logged and the store is left
    as it was. *)
Theorem poll_provider_failure (stripe : Stripe) (o : Oracle)
    (sessionId : string) (e : Exn) (w : World) :
  checkout_sessions_retrieve stripe sessionId = inl e ->
  run (stripe_session stripe o sessionId) w
  = (mkWorld (db w) (console w ++ ["Error retrieving session:"])%list,
     inr (res_status 500 (json_error "Failed to retrieve session"))).
Proof.
  intros Hs. unfold stripe_session. rewrite Hs. reflexivity.
Qed.

Lemma poll_provider_failure_witness :
  run (stripe_session Sample.stripe Sample.oracle_1 "cs_unknown") Sample.joined
  = (mkWorld (db Sample.joined)
             (console Sample.joined ++ ["Error retrieving session:"])%list,
     inr (res_status 500 (json_error "Failed to retrieve session"))).
Proof.
  apply (poll_provider_failure Sample.stripe Sample.oracle_1 "cs_unknown"
           (StripeError "No such checkout.session") Sample.joined).
  reflexivity.
Defined.

(** A settle invocation that finds the participant row marks completed,
    with the provider's payment intent recorded, exactly the Payment rows
    that carry the session identifier; every other Payment row, and the
    rides table with its seat counts, are left as they were. *)
Theorem settlement_completes_payments_of_session (stripe : Stripe)
    (process_env : ProcessEnv) (o : Oracle) (t : Trigger)
    (sessionId : string) (session : Session.t) (p : Participant.row)
    (w : World) :
  completion stripe process_env t = Some (sessionId, session) ->
  participants_select_single (Session.metadata_rideId session)
    (Session.metadata_userId session) (db w) = inr p ->
  let s' := db (fst (run (settle stripe process_env o t) w)) in
  payments s'
  = map (fun q => if String.eqb (Payment.stripe_session_id q) sessionId
                  then Payment.set_completed (Session.payment_intent session) q
                  else q) (payments (db w))
  /\ rides s' = rides (db w).
Proof.
  intros Hc Hsel. cbv zeta. rewrite (settle_run _ _ o _ _ _ w Hc), Hsel.
  cbn [fst].
  destruct (settle_participant_tables o sessionId
              (Session.payment_intent session)
              (Session.metadata_rideId session)
              (Session.metadata_userId session) p w)
    as (_ & Hy & Hr & _).
  split; assumption.
Qed.

Lemma settlement_completes_payments_of_session_witness :
  let s' := db (fst (run (settle Sample.stripe Sample.process_env
                            Sample.oracle_2 (Poll "cs_test_1"))
                         Sample.checked_out)) in
  payments s'
  = map (fun q => if String.eqb (Payment.stripe_session_id q) "cs_test_1"
                  then Payment.set_completed (Some "pi_1") q
                  else q) (payments (db Sample.checked_out))
  /\ rides s' = rides (db Sample.checked_out).
Proof.
  apply (settlement_completes_payments_of_session Sample.stripe
           Sample.process_env Sample.oracle_2 (Poll "cs_test_1") "cs_test_1"
           Sample.session_1
           (Participant.mk 103 100 2 "ADHKOSVZ" (Some 500%Z) 0%Z false None
                           None)
           Sample.checked_out).
  - reflexivity.
  - reflexivity.
Defined.


(** ** The ride handlers, table by table *)

Lemma extends_refl {A : Type} (l : list A) : extends l l.
Proof. exists []. now rewrite app_nil_r. Qed.

Lemma extends_snoc {A : Type} (l : list A) (x : A) : extends l (l ++ [x]).
Proof. now exists [x]. Qed.

Lemma extends_trans {A : Type} (l1 l2 l3 : list A) :
  extends l1 l2 -> extends l2 l3 -> extends l1 l3.
Proof.
  intros [a ->] [b ->]. exists (a ++ b)%list. now rewrite app_assoc.
Qed.

Lemma rides_join_commits_tables (o : Oracle) (rideId userId : uuid)
    (amountDue : option Z) (w : World) (ride : Ride.row) :
  rides_select_single (Some rideId) (db w) = inr ride ->
  (0 < Ride.seats_left ride)%Z ->
  mem_uuid userId (auth_users (db w)) = true ->
  is_participant rideId userId (db w) = false ->
  let s' := db (fst (run (rides_join o (JoinBody.mk (Some rideId) (Some userId)
                                                    amountDue)) w)) in
  payments s' = payments (db w)
  /\ ride_codes s' = ride_codes (db w)
  /\ history s' = history (db w)
  /\ extends (notifications (db w)) (notifications s').
Proof.
  intros H Hs Hu Hp.
  destruct (rides_select_single_found _ _ _ H) as (_ & _ & Hex).
  unfold rides_join. simpl. rewrite H.
  apply Z.leb_gt in Hs. rewrite Hs. simpl.
  rewrite (participants_insert_accepts _ _ _ _ _ _ Hex Hu Hp). simpl.
  unfold rides_update_seats_left, createNotification, createHistoryEntry,
    notifications_insert. simpl.
  destruct (notification_outcome o); simpl; repeat split;
    auto using extends_refl, extends_snoc.
Qed.

(** What a join does to the store, whatever the request: nothing, or the
    two business writes and at most one notification. *)
Lemma rides_join_footprint (o : Oracle) (req : JoinBody.t) (w : World) :
  let s' := db (fst (run (rides_join o req) w)) in
  s' = db w
  \/ exists rideId userId ride,
       rides_select_single (Some rideId) (db w) = inr ride
       /\ (0 < Ride.seats_left ride)%Z
       /\ is_participant rideId userId (db w) = false
       /\ rides s'
          = map (fun x => if Nat.eqb (Ride.id x) rideId
                          then Ride.set_seats_left (Ride.seats_left ride - 1)%Z x
                          else x) (rides (db w))
       /\ ride_participants s'
          = (ride_participants (db w)
             ++ [Participant.mk (next_uuid (db w)) rideId userId
                   (generateRideCode (Math_random o) 8)
                   (Some (num_or (JoinBody.amountDue req)
                                 (Ride.price_per_seat ride)))
                   0%Z false None None])%list
       /\ payments s' = payments (db w)
       /\ ride_codes s' = ride_codes (db w)
       /\ history s' = history (db w)
       /\ extends (notifications (db w)) (notifications s').
Proof.
  destruct req as [[rideId |] [userId |] amountDue]; try (left; reflexivity).
  destruct (rides_select_single (Some rideId) (db w)) as [e | ride] eqn:H.
  { left. now rewrite (rides_join_not_found _ _ _ _ _ _ H). }
  destruct (Z.leb_spec (Ride.seats_left ride) 0) as [Hs | Hs].
  { left. now rewrite (rides_join_no_seats _ _ _ _ _ _ H Hs). }
  destruct (participants_insert_outcome rideId userId
              (generateRideCode (Math_random o) 8)
              (num_or amountDue (Ride.price_per_seat ride)) false (db w))
    as [[e He] | (Hex & Hu & Hp)].
  { left. now rewrite (rides_join_refused _ _ _ _ _ _ _ H Hs He). }
  right.
  destruct (rides_join_commits o rideId userId amountDue w ride H Hs Hu Hp)
    as (_ & Hparts & Hrides & _).
  destruct (rides_join_commits_tables o rideId userId amountDue w ride H Hs Hu Hp)
    as (Hy & Hc & Hh & Hn).
  exists rideId, userId, ride. repeat split; auto.
Qed.

(** What a creation does to the store, whatever the request: nothing, or
    one ride, at most one code row and at most one notification. *)
Lemma rides_create_footprint (o : Oracle) (req : CreateBody.t) (w : World) :
  let s' := db (fst (run (rides_create o req) w)) in
  s' = db w
  \/ exists r,
       rides s' = (rides (db w) ++ [r])%list
       /\ Ride.id r = next_uuid (db w)
       /\ Ride.ride_code r = generateRideCode (Math_random o) 6
       /\ Ride.status r = "active"
       /\ Ride.seats_left r = Ride.total_seats r
       /\ CreateBody.totalSeats req = Some (Ride.total_seats r)
       /\ CreateBody.pricePerSeat req = Some (Ride.price_per_seat r)
       /\ CreateBody.userId req = Some (Ride.created_by r)
       /\ existsb (fun x => String.eqb (Ride.ride_code x) (Ride.ride_code r))
                  (rides (db w)) = false
       /\ ride_participants s' = ride_participants (db w)
       /\ payments s' = payments (db w)
       /\ history s' = history (db w)
       /\ extends (notifications (db w)) (notifications s')
       /\ ride_codes s'
          = ride_codes
              (fst (ride_codes_insert (Some (Ride.id r)) (Ride.ride_code r)
                      (bump_uuid (with_rides (rides (db w) ++ [r])%list (db w))))).
Proof.
  destruct (complete_create req) eqn:Hc.
  2:{ left. now rewrite (incomplete_create_rejected o req w Hc). }
  destruct (complete_create_fields req Hc)
    as (u & t & og & d & dt & n & p & Hu & Ht & Hog & Hd & Hdt & Hn & Hn' & Hp).
  unfold rides_create. rewrite Hu, Ht, Hog, Hd, Hdt, Hn, Hp.
  destruct (rides_insert_outcome u t og d dt n n p
              (generateRideCode (Math_random o) 6) "active" (db w))
    as [[e He] | [Hfree Hok]].
  - left. simpl. rewrite He. reflexivity.
  - right. simpl. rewrite Hok.
    unfold createNotification, createHistoryEntry, notifications_insert.
    cbn [fst snd hd_error option_map Ride.id try_catch bind run on_db db
         console await_call].
    match goal with
    | |- context [ride_codes_insert ?a ?b ?s] =>
        pose proof (ride_codes_insert_frame a b s) as F;
        set (s1 := fst (ride_codes_insert a b s)) in *
    end.
    simpl in F. destruct F as (Fa & Fr & Fp & Fy & Fn & Fh & Fu).
    eexists.
    destruct (notification_outcome o); simpl; rewrite ?Fr, ?Fp, ?Fy, ?Fh, ?Fn;
      (split; [reflexivity |]); simpl;
      repeat split; auto using extends_refl, extends_snoc.
Qed.

(** ** Rejected joins and creations *)

(** A join request that lacks the ride or the user is answered 400
    "Missing required fields" before any store call; nothing is written. *)
Theorem join_missing_field (o : Oracle) (req : JoinBody.t) (w : World) :
  JoinBody.rideId req = None \/ JoinBody.userId req = None ->
  run (rides_join o req) w
  = (w, inr (res_status 400 (json_error "Missing required fields")))
  /\ actions (rides_join o req) w = 0.
Proof.
  destruct req as [[rideId |] [userId |] amountDue];
    intros [H | H]; try discriminate H; split; reflexivity.
Qed.

Lemma join_missing_field_witness :
  run (rides_join Sample.oracle_1 (JoinBody.mk (Some 100) None (Some 500%Z)))
      Sample.created
  = (Sample.created, inr (res_status 400 (json_error "Missing required fields")))
  /\ actions (rides_join Sample.oracle_1
                (JoinBody.mk (Some 100) None (Some 500%Z))) Sample.created = 0.
Proof.
  apply (join_missing_field Sample.oracle_1
           (JoinBody.mk (Some 100) None (Some 500%Z)) Sample.created).
  right. reflexivity.
Defined.

(** A join to a ride with a seat left, by a user who already holds a
    participant row for that ride or whom [auth.users] does not know, is
    answered 500 "Failed to join ride": the participant insert is refused,
    seats_left is not touched and nothing is written. *)
Theorem join_refused_writes_nothing (o : Oracle) (rideId userId : uuid)
    (amountDue : option Z) (w : World) (ride : Ride.row) :
  rides_select_single (Some rideId) (db w) = inr ride ->
  (0 < Ride.seats_left ride)%Z ->
  is_participant rideId userId (db w) = true
  \/ mem_uuid userId (auth_users (db w)) = false ->
  run (rides_join o (JoinBody.mk (Some rideId) (Some userId) amountDue)) w
  = (w, inr (res_status 500 (json_error "Failed to join ride"))).
Proof.
  intros H Hs Hbad.
  destruct (participants_insert_outcome rideId userId
              (generateRideCode (Math_random o) 8)
              (num_or amountDue (Ride.price_per_seat ride)) false (db w))
    as [[e He] | (_ & Hu & Hp)].
  - exact (rides_join_refused _ _ _ _ _ _ _ H Hs He).
  - destruct Hbad as [Hb | Hb]; congruence.
Qed.

Lemma join_refused_writes_nothing_witness :
  run (rides_join Sample.oracle_2 (JoinBody.mk (Some 100) (Some 2) None))
      Sample.joined
  = (Sample.joined, inr (res_status 500 (json_error "Failed to join ride"))).
Proof.
  apply (join_refused_writes_nothing Sample.oracle_2 100 2 None Sample.joined
           (Ride.mk 100 1 "Airport run" "Pune" "Mumbai" "2026-01-05T06:00:00Z"
                    2 1 500 "ADHKOS" "active")).
  - reflexivity.
  - reflexivity.
  - left. reflexivity.
Defined.

(** A join that commits, with an amount due that fits the integer column,
    stores as the private join code of the new participant row a string of
    exactly 8 uppercase letters and digits, when the draws of
    [Math.random] are in range; the row is unpaid with nothing paid. *)
Theorem join_stores_eight_character_code (o : Oracle) (rideId userId : uuid)
    (amountDue : option Z) (w : World) (ride : Ride.row) :
  rides_select_single (Some rideId) (db w) = inr ride ->
  (0 < Ride.seats_left ride)%Z ->
  mem_uuid userId (auth_users (db w)) = true ->
  is_participant rideId userId (db w) = false ->
  in_int4 (num_or amountDue (Ride.price_per_seat ride)) = true ->
  (forall i, i < 8 -> (0 <= Math_random o i)%Q /\ (Math_random o i < 1)%Q) ->
  exists p,
    ride_participants
      (db (fst (run (rides_join o (JoinBody.mk (Some rideId) (Some userId)
                                               amountDue)) w)))
    = (ride_participants (db w) ++ [p])%list
    /\ Participant.user_id p = userId
    /\ String.length (Participant.join_code p) = 8
    /\ string_forallb in_alphabet (Participant.join_code p) = true
    /\ Participant.paid p = false
    /\ Participant.amount_paid p = 0%Z.
Proof.
  intros H Hs Hu Hp _ Hrnd.
  destruct (rides_join_commits o rideId userId amountDue w ride H Hs Hu Hp)
    as (_ & Hparts & _).
  eexists. split; [exact Hparts |]. cbn [Participant.user_id Participant.join_code
                                         Participant.paid Participant.amount_paid].
  destruct (generateRideCode_loop_spec (Math_random o) 8 0 "") as [Hl Hf].
  { intros j Hj. apply Hrnd. lia. }
  unfold generateRideCode. rewrite Hl, Hf. repeat split.
Qed.

Lemma join_stores_eight_character_code_witness :
  exists p,
    ride_participants
      (db (fst (run (rides_join Sample.oracle_2
                       (JoinBody.mk (Some 100) (Some 3) None)) Sample.joined)))
    = (ride_participants (db Sample.joined) ++ [p])%list
    /\ Participant.user_id p = 3
    /\ String.length (Participant.join_code p) = 8
    /\ string_forallb in_alphabet (Participant.join_code p) = true
    /\ Participant.paid p = false
    /\ Participant.amount_paid p = 0%Z.
Proof.
  apply (join_stores_eight_character_code Sample.oracle_2 100 3 None
           Sample.joined
           (Ride.mk 100 1 "Airport run" "Pune" "Mumbai" "2026-01-05T06:00:00Z"
                    2 1 500 "ADHKOS" "active")).
  - reflexivity.
  - reflexivity.
  - reflexivity.
  - reflexivity.
  - reflexivity.
  - intros i _. split; [discriminate | reflexivity].
Defined.

(** Neither ride handler ever writes a history entry or touches a Payment
    row: whatever the request and whatever becomes of it, a join or a
    creation leaves the history table and the payments table as they
    were. *)
Theorem ride_handlers_write_no_history (o : Oracle) (join : JoinBody.t)
    (create : CreateBody.t) (w : World) :
  history (db (fst (run (rides_join o join) w))) = history (db w)
  /\ payments (db (fst (run (rides_join o join) w))) = payments (db w)
  /\ history (db (fst (run (rides_create o create) w))) = history (db w)
  /\ payments (db (fst (run (rides_create o create) w))) = payments (db w).
Proof.
  destruct (rides_join_footprint o join w) as [E | (rid & uid & ride & F)];
    destruct (rides_create_footprint o create w) as [E' | (r & F')];
    cbv zeta in *; rewrite ?E, ?E'; repeat split; tauto.
Qed.

(** A creation request in which a required field is absent or empty, or
    whose seat count is 0, is answered 400 "Missing required fields" before
    any store call; nothing is written. *)
Theorem create_missing_field (o : Oracle) (req : CreateBody.t) (w : World) :
  complete_create req = false ->
  run (rides_create o req) w
  = (w, inr (res_status 400 (json_error "Missing required fields")))
  /\ actions (rides_create o req) w = 0.
Proof.
  intros H. split; [exact (incomplete_create_rejected o req w H) |].
  revert H.
  unfold complete_create, falsy_id, falsy_str, falsy_num, rides_create,
    truthy_str, truthy_num.
  destruct req as [[u |] [t |] [og |] [d |] [dt |] [n |] [p |]]; simpl;
    try reflexivity;
    destruct (String.eqb t ""); try reflexivity;
    destruct (String.eqb og ""); try reflexivity;
    destruct (String.eqb d ""); try reflexivity;
    destruct (String.eqb dt ""); try reflexivity;
    destruct (n =? 0)%Z; try reflexivity; simpl; discriminate.
Qed.

Lemma create_missing_field_witness :
  run (rides_create Sample.oracle_1 (Sample.create_req 0)) Sample.empty_world
  = (Sample.empty_world,
     inr (res_status 400 (json_error "Missing required fields")))
  /\ actions (rides_create Sample.oracle_1 (Sample.create_req 0))
             Sample.empty_world = 0.
Proof.
  apply (create_missing_field Sample.oracle_1 (Sample.create_req 0)
           Sample.empty_world).
  reflexivity.
Defined.

(** A complete creation request by a user [auth.users] does not know is
    answered 500 "Failed to create ride": the insert is refused and no
    ride, code row or notification is written. *)
Theorem create_unknown_creator (o : Oracle) (req : CreateBody.t)
    (userId : uuid) (w : World) :
  complete_create req = true ->
  CreateBody.userId req = Some userId ->
  mem_uuid userId (auth_users (db w)) = false ->
  run (rides_create o req) w
  = (w, inr (res_status 500 (json_error "Failed to create ride"))).
Proof.
  intros Hc Hid Hunknown.
  destruct (complete_create_fields req Hc)
    as (u & t & og & d & dt & n & p & Hu & Ht & Hog & Hd & Hdt & Hn & _ & Hp).
  assert (u = userId) as -> by congruence.
  unfold rides_create. rewrite Hu, Ht, Hog, Hd, Hdt, Hn, Hp.
  cbn [await_db bind try_catch run on_db]. unfold rides_insert.
  rewrite Hunknown. simpl. now rewrite world_eta.
Qed.

Lemma create_unknown_creator_witness :
  run (rides_create Sample.oracle_1
         (CreateBody.mk (Some 9) (Some "Airport run") (Some "Pune")
                        (Some "Mumbai") (Some "2026-01-05T06:00:00Z")
                        (Some 2%Z) (Some 500%Z)))
      Sample.empty_world
  = (Sample.empty_world, inr (res_status 500 (json_error "Failed to create ride"))).
Proof.
  apply (create_unknown_creator Sample.oracle_1
           (CreateBody.mk (Some 9) (Some "Airport run") (Some "Pune")
                          (Some "Mumbai") (Some "2026-01-05T06:00:00Z")
                          (Some 2%Z) (Some 500%Z))
           9 Sample.empty_world).
  - reflexivity.
  - reflexivity.
  - reflexivity.
Defined.




(** ** What the payment handlers do to each table *)

Lemma checkout_footprint (stripe : Stripe) (process_env : ProcessEnv)
    (req : CheckoutBody.t) (w : World) :
  let s' := db (fst (run (stripe_create_checkout_session stripe process_env req)
                         w)) in
  rides s' = rides (db w)
  /\ ride_participants s' = ride_participants (db w)
  /\ notifications s' = notifications (db w)
  /\ history s' = history (db w)
  /\ (payments s' = payments (db w)
      \/ exists p, payments s' = (payments (db w) ++ [p])%list
                   /\ has_payment (Payment.stripe_session_id p) (db w) = false).
Proof.
  unfold stripe_create_checkout_session.
  destruct (CheckoutBody.rideId req) as [rid |]; [| simpl; auto 6].
  destruct (CheckoutBody.userId req) as [uid |]; [| simpl; auto 6].
  destruct (truthy_num (CheckoutBody.amount req)) as [amount |];
    [| simpl; auto 6].
  cbn [await_provider bind try_catch run].
  destruct (checkout_sessions_create stripe _) as [e | session];
    [simpl; auto 6 |].
  cbn [await_db bind try_catch run on_db fst snd db].
  unfold payments_insert, has_payment.
  destruct (negb (mem_uuid uid (auth_users (db w)))); [simpl; auto 6 |].
  destruct (negb (ride_exists rid (db w))); [simpl; auto 6 |].
  destruct (existsb _ (payments (db w))) eqn:E; [simpl; auto 6 |].
  simpl. repeat split; auto. right. eexists. split; [reflexivity |].
  exact E.
Qed.

Lemma settle_footprint (stripe : Stripe) (process_env : ProcessEnv) (o : Oracle)
    (t : Trigger) (w : World) :
  let s' := db (fst (run (settle stripe process_env o t) w)) in
  rides s' = rides (db w)
  /\ (exists f,
        ride_participants s' = map f (ride_participants (db w))
        /\ forall q, Participant.id (f q) = Participant.id q
                     /\ participant_key (f q) = participant_key q
                     /\ Participant.join_code (f q) = Participant.join_code q
                     /\ Participant.amount_due (f q) = Participant.amount_due q
                     /\ (Participant.paid q = true -> Participant.paid (f q) = true))
  /\ (exists g,
        payments s' = map g (payments (db w))
        /\ forall q, Payment.stripe_session_id (g q) = Payment.stripe_session_id q)
  /\ extends (notifications (db w)) (notifications s')
  /\ extends (history (db w)) (history s').
Proof.
  assert (Hid : forall s : Store,
             rides s = rides s
             /\ (exists f,
                   ride_participants s = map f (ride_participants s)
                   /\ forall q, Participant.id (f q) = Participant.id q
                                /\ participant_key (f q) = participant_key q
                                /\ Participant.join_code (f q)
                                   = Participant.join_code q
                                /\ Participant.amount_due (f q)
                                   = Participant.amount_due q
                                /\ (Participant.paid q = true ->
                                    Participant.paid (f q) = true))
             /\ (exists g,
                   payments s = map g (payments s)
                   /\ forall q, Payment.stripe_session_id (g q)
                                = Payment.stripe_session_id q)
             /\ extends (notifications s) (notifications s)
             /\ extends (history s) (history s)).
  { intros s. split; [reflexivity |]. split; [| split].
    - exists (fun q => q). split; [now rewrite map_id | auto].
    - exists (fun q => q). split; [now rewrite map_id | auto].
    - split; apply extends_refl. }
  destruct (completion stripe process_env t) as [[sid session] |] eqn:Hc.
  - rewrite (settle_run _ _ o _ _ _ w Hc).
    destruct (participants_select_single _ _ (db w)) as [e | p]; [apply Hid |].
    cbn [fst].
    destruct (settle_participant_tables o sid (Session.payment_intent session)
                (Session.metadata_rideId session)
                (Session.metadata_userId session) p w)
      as (Hp & Hy & Hr & _).
    split; [exact Hr |]. split; [| split].
    + eexists. split; [exact Hp |]. intros q. cbv beta.
      destruct (Nat.eqb (Participant.id q) (Participant.id p)); auto.
    + eexists. split; [exact Hy |]. intros q. cbv beta.
      destruct (String.eqb (Payment.stripe_session_id q) sid); reflexivity.
    + revert Hp Hy Hr. clear.
      unfold settle_participant, createNotification, logUserAction,
        participants_update_paid, payments_update_completed,
        notifications_insert, history_insert.
      simpl.
      match goal with
      | |- context [ride_codes_upsert ?a ?b ?s] =>
          pose proof (ride_codes_upsert_frame a b s) as F;
          set (s1 := fst (ride_codes_upsert a b s)) in *
      end.
      simpl in F. destruct F as (Fa & Fr & Fp & Fy & Fn & Fh & Fu).
      intros _ _ _.
      destruct (notification_outcome o), (history_outcome o); simpl;
        rewrite ?Fn, ?Fh; split; auto using extends_refl, extends_snoc.
  - destruct t as [x | req]; cbn [settle].
    + rewrite poll_not_paid_db; [apply Hid |].
      intros s Hret Hpaid. unfold completion in Hc. rewrite Hret, Hpaid in Hc.
      discriminate.
    + rewrite webhook_run. apply Hid.
Qed.

(** ** What holds across every sequence of requests *)

Section AcrossRequests.

Variable stripe : Stripe.
Variable process_env : ProcessEnv.
Variable R : Store -> Store -> Prop.
Hypothesis R_refl : forall s, R s s.
Hypothesis R_trans : forall s1 s2 s3, R s1 s2 -> R s2 s3 -> R s1 s3.
Hypothesis R_step :
  forall r w, R (db w) (db (fst (run (handle stripe process_env r) w))).

Lemma serve_related (reqs : list Request) (w : World) :
  R (db w) (db (serve stripe process_env reqs w)).
Proof.
  revert w. induction reqs as [| r reqs IH]; intros w.
  - apply R_refl.
  - rewrite serve_cons. eapply R_trans; [apply R_step | apply IH].
Qed.

End AcrossRequests.

Lemma not_in_keys (rideId userId : uuid) (l : list Participant.row) :
  existsb (fun p => Nat.eqb (Participant.ride_id p) rideId
                    && Nat.eqb (Participant.user_id p) userId) l = false ->
  ~ In (rideId, userId) (map participant_key l).
Proof.
  intros H Hin. apply in_map_iff in Hin as (p & Hk & Hp).
  assert (existsb (fun p => Nat.eqb (Participant.ride_id p) rideId
                            && Nat.eqb (Participant.user_id p) userId) l = true).
  { apply existsb_exists. exists p. split; auto.
    unfold participant_key in Hk. injection Hk as <- <-.
    now rewrite !Nat.eqb_refl. }
  congruence.
Qed.

Lemma not_in_strings {A : Type} (k : A -> string) (v : string) (l : list A) :
  existsb (fun x => String.eqb (k x) v) l = false -> ~ In v (map k l).
Proof.
  intros H Hin. apply in_map_iff in Hin as (x & Hk & Hx).
  assert (existsb (fun x => String.eqb (k x) v) l = true).
  { apply existsb_exists. exists x. split; auto. now apply String.eqb_eq. }
  congruence.
Qed.

Lemma handle_keeps_unique_keys (stripe : Stripe) (process_env : ProcessEnv)
    (r : Request) (w : World) :
  unique_keys (db w) ->
  unique_keys (db (fst (run (handle stripe process_env r) w))).
Proof.
  intros (Hp & Hy & Hr). destruct r as [req | o sid | o req | o req | o req];
    cbn [handle]; unfold unique_keys.
  - destruct (checkout_footprint stripe process_env req w)
      as (Er & Ep & _ & _ & [Ey | (p & Ey & Hfresh)]);
      rewrite Er, Ep, Ey; repeat split; auto.
    rewrite map_app. apply NoDup_snoc; auto.
    now apply not_in_strings.
  - destruct (settle_footprint stripe process_env o (Poll sid) w)
      as (Er & (f & Ep & Hf) & (g & Ey & Hg) & _).
    cbn [settle] in *. rewrite Er, Ep, Ey, !map_map.
    rewrite (map_ext _ participant_key) by (intros q; apply Hf).
    rewrite (map_ext _ Payment.stripe_session_id) by (intros q; apply Hg).
    repeat split; auto.
  - destruct (settle_footprint stripe process_env o (Push req) w)
      as (Er & (f & Ep & Hf) & (g & Ey & Hg) & _).
    cbn [settle] in *. rewrite Er, Ep, Ey, !map_map.
    rewrite (map_ext _ participant_key) by (intros q; apply Hf).
    rewrite (map_ext _ Payment.stripe_session_id) by (intros q; apply Hg).
    repeat split; auto.
  - destruct (rides_create_footprint o req w) as [E | (x & F)].
    + cbv zeta in E. rewrite E. repeat split; auto.
    + destruct F as (Er & _ & _ & _ & _ & _ & _ & _ & Hfree & Ep & Ey & _).
      rewrite Er, Ep, Ey, map_app. repeat split; auto.
      apply NoDup_snoc; auto. now apply not_in_strings.
  - destruct (rides_join_footprint o req w) as [E | (rid & uid & ride & F)].
    + cbv zeta in E. rewrite E. repeat split; auto.
    + destruct F as (_ & _ & Hnew & Er & Ep & Ey & _).
      rewrite Er, Ep, Ey, map_app, map_map. repeat split; auto.
      * apply NoDup_snoc; auto. now apply not_in_keys.
      * rewrite (map_ext _ Ride.ride_code); auto.
        intros x. destruct (Nat.eqb (Ride.id x) rid); reflexivity.
Qed.

(** Whatever requests are served one after the other, the server never
    stores two participant rows for one user on one ride, two Payment
    rows with one session identifier, or two rides with one display code:
    a store in which all three are unique stays so, because every insert
    that would break one of them is refused and no update rewrites a
    key. *)
Theorem unique_keys_preserved (stripe : Stripe) (process_env : ProcessEnv)
    (reqs : list Request) (w : World) :
  unique_keys (db w) -> unique_keys (db (serve stripe process_env reqs w)).
Proof.
  revert w. induction reqs as [| r reqs IH]; intros w H.
  - exact H.
  - rewrite serve_cons. apply IH. now apply handle_keeps_unique_keys.
Qed.

Lemma unique_keys_preserved_witness :
  unique_keys
    (db (serve Sample.stripe Sample.process_env
           [POST_create Sample.oracle_1 (Sample.create_req 2);
            POST_create Sample.oracle_1 (Sample.create_req 3);
            POST_join Sample.oracle_1 (Sample.join_req 2);
            POST_join Sample.oracle_2 (Sample.join_req 2);
            POST_checkout Sample.checkout_req;
            POST_checkout Sample.checkout_req;
            GET_session Sample.oracle_2 "cs_test_1"]
           Sample.empty_world)).
Proof.
  apply (unique_keys_preserved Sample.stripe Sample.process_env
           [POST_create Sample.oracle_1 (Sample.create_req 2);
            POST_create Sample.oracle_1 (Sample.create_req 3);
            POST_join Sample.oracle_1 (Sample.join_req 2);
            POST_join Sample.oracle_2 (Sample.join_req 2);
            POST_checkout Sample.checkout_req;
            POST_checkout Sample.checkout_req;
            GET_session Sample.oracle_2 "cs_test_1"]
           Sample.empty_world).
  repeat split; constructor.
Defined.

Lemma single_filter_unique {A : Type} (P : A -> bool) (l : list A) (x y : A) :
  single (filter P l) = inr x -> In y l -> P y = true -> y = x.
Proof.
  intros H Hin HP.
  assert (Hy : In y (filter P l)) by (apply filter_In; auto).
  destruct (filter P l) as [| a [| b t]]; try discriminate.
  injection H as ->. destruct Hy as [-> | []]. reflexivity.
Qed.

Lemma ride_kept_refl (r : Ride.row) : ride_kept r r.
Proof. unfold ride_kept. repeat split; auto. lia. Qed.

Lemma ride_kept_trans (a b c : Ride.row) :
  ride_kept a b -> ride_kept b c -> ride_kept a c.
Proof. unfold ride_kept. intuition (try congruence). lia. Qed.

Lemma participant_kept_refl (p : Participant.row) : participant_kept p p.
Proof. unfold participant_kept. repeat split; auto. Qed.

Lemma participant_kept_trans (a b c : Participant.row) :
  participant_kept a b -> participant_kept b c -> participant_kept a c.
Proof. unfold participant_kept. intuition congruence. Qed.

Lemma handle_rides_kept (stripe : Stripe) (process_env : ProcessEnv)
    (r : Request) (w : World) :
  rides_kept (db w) (db (fst (run (handle stripe process_env r) w))).
Proof.
  assert (Hsame : forall s', rides s' = rides (db w) -> rides_kept (db w) s').
  { intros s' E r0 Hin. exists r0. rewrite E. split; auto using ride_kept_refl. }
  destruct r as [req | o sid | o req | o req | o req]; cbn [handle].
  - apply Hsame. apply (checkout_footprint stripe process_env req w).
  - apply Hsame. apply (settle_footprint stripe process_env o (Poll sid) w).
  - apply Hsame. apply (settle_footprint stripe process_env o (Push req) w).
  - destruct (rides_create_footprint o req w) as [E | (x & Er & _)].
    + apply Hsame. cbv zeta in E. now rewrite E.
    + intros r0 Hin. exists r0. rewrite Er.
      split; [apply in_or_app; now left | apply ride_kept_refl].
  - destruct (rides_join_footprint o req w)
      as [E | (rid & uid & ride & Hsel & Hs & _ & Er & _)].
    + apply Hsame. cbv zeta in E. now rewrite E.
    + intros r0 Hin. rewrite Er.
      eexists. split; [apply in_map; exact Hin |]. cbv beta.
      destruct (Nat.eqb (Ride.id r0) rid) eqn:E; [| apply ride_kept_refl].
      assert (r0 = ride) as ->.
      { unfold rides_select_single in Hsel.
        apply (single_filter_unique _ _ _ _ Hsel Hin). exact E. }
      unfold ride_kept. simpl. repeat split; auto. lia.
Qed.

(** The server never deletes a ride and never gives a seat back: whatever
    requests are served one after the other, every ride of the store is
    still there afterwards with the same owner, route, departure time,
    total_seats, price, display code and status, and its seats_left is at
    most what it was. *)
Theorem rides_persist_and_seats_never_grow (stripe : Stripe)
    (process_env : ProcessEnv) (reqs : list Request) (w : World)
    (r0 : Ride.row) :
  In r0 (rides (db w)) ->
  exists r, In r (rides (db (serve stripe process_env reqs w)))
            /\ ride_kept r0 r.
Proof.
  revert r0. change (rides_kept (db w) (db (serve stripe process_env reqs w))).
  apply (serve_related stripe process_env rides_kept).
  - intros s r0 Hin. exists r0. split; auto using ride_kept_refl.
  - intros s1 s2 s3 H12 H23 r0 Hin.
    destruct (H12 r0 Hin) as (r1 & Hin1 & K1).
    destruct (H23 r1 Hin1) as (r2 & Hin2 & K2).
    exists r2. split; eauto using ride_kept_trans.
  - intros r w'. apply handle_rides_kept.
Qed.

Lemma rides_persist_and_seats_never_grow_witness :
  exists r,
    In r (rides (db (serve Sample.stripe Sample.process_env
                       [POST_join Sample.oracle_1 (Sample.join_req 2);
                        POST_checkout Sample.checkout_req;
                        POST_webhook Sample.oracle_1
                          (WebhookRequest.mk "checkout.session.expired"
                                             (Some "whsec_1"))]
                       Sample.created)))
    /\ ride_kept (Ride.mk 100 1 "Airport run" "Pune" "Mumbai"
                          "2026-01-05T06:00:00Z" 2 2 500 "ADHKOS" "active") r.
Proof.
  apply (rides_persist_and_seats_never_grow Sample.stripe Sample.process_env
           [POST_join Sample.oracle_1 (Sample.join_req 2);
            POST_checkout Sample.checkout_req;
            POST_webhook Sample.oracle_1
              (WebhookRequest.mk "checkout.session.expired" (Some "whsec_1"))]
           Sample.created).
  simpl. left. reflexivity.
Defined.

Lemma handle_participants_kept (stripe : Stripe) (process_env : ProcessEnv)
    (r : Request) (w : World) :
  participants_kept (db w) (db (fst (run (handle stripe process_env r) w))).
Proof.
  assert (Hsame : forall s', ride_participants s' = ride_participants (db w) ->
                             participants_kept (db w) s').
  { intros s' E p0 Hin. exists p0. rewrite E.
    split; auto using participant_kept_refl. }
  assert (Hsettle : forall o t,
             participants_kept (db w)
               (db (fst (run (settle stripe process_env o t) w)))).
  { intros o t p0 Hin.
    destruct (settle_footprint stripe process_env o t w)
      as (_ & (f & Ep & Hf) & _).
    exists (f p0). rewrite Ep. split; [now apply in_map |].
    destruct (Hf p0) as (Hi & Hk & Hj & Ha & Hpaid).
    unfold participant_key in Hk. injection Hk as Hr Hu.
    unfold participant_kept. repeat split; auto. }
  destruct r as [req | o sid | o req | o req | o req]; cbn [handle].
  - apply Hsame. apply (checkout_footprint stripe process_env req w).
  - apply (Hsettle o (Poll sid)).
  - apply (Hsettle o (Push req)).
  - destruct (rides_create_footprint o req w) as [E | (x & F)].
    + apply Hsame. cbv zeta in E. now rewrite E.
    + apply Hsame. apply F.
  - destruct (rides_join_footprint o req w)
      as [E | (rid & uid & ride & _ & _ & _ & _ & Ep & _)].
    + apply Hsame. cbv zeta in E. now rewrite E.
    + intros p0 Hin. exists p0. rewrite Ep.
      split; [apply in_or_app; now left | apply participant_kept_refl].
Qed.

(** The server never deletes a participant row and never takes a payment
    back: whatever requests are served one after the other, every
    participant row of the store is still there afterwards for the same
    ride and user, with the same join code and amount due, and a row that
    was paid is still paid. *)
Theorem participants_persist_and_stay_paid (stripe : Stripe)
    (process_env : ProcessEnv) (reqs : list Request) (w : World)
    (p0 : Participant.row) :
  In p0 (ride_participants (db w)) ->
  exists p, In p (ride_participants (db (serve stripe process_env reqs w)))
            /\ participant_kept p0 p.
Proof.
  revert p0.
  change (participants_kept (db w) (db (serve stripe process_env reqs w))).
  apply (serve_related stripe process_env participants_kept).
  - intros s p0 Hin. exists p0. split; auto using participant_kept_refl.
  - intros s1 s2 s3 H12 H23 p0 Hin.
    destruct (H12 p0 Hin) as (p1 & Hin1 & K1).
    destruct (H23 p1 Hin1) as (p2 & Hin2 & K2).
    exists p2. split; eauto using participant_kept_trans.
  - intros r w'. apply handle_participants_kept.
Qed.

Lemma participants_persist_and_stay_paid_witness :
  exists p,
    In p (ride_participants
            (db (serve Sample.stripe Sample.process_env
                   [POST_join Sample.oracle_2 (Sample.join_req 3);
                    POST_webhook Sample.oracle_1
                      (WebhookRequest.mk "checkout.session.expired"
                                         (Some "whsec_1"));
                    GET_session Sample.oracle_2 "cs_test_1"]
                   Sample.settled)))
    /\ participant_kept
         (Participant.mk 103 100 2 "ADHKOSVZ" (Some 500%Z) 500%Z true
                         (Some "cs_test_1") None) p.
Proof.
  apply (participants_persist_and_stay_paid Sample.stripe Sample.process_env
           [POST_join Sample.oracle_2 (Sample.join_req 3);
            POST_webhook Sample.oracle_1
              (WebhookRequest.mk "checkout.session.expired" (Some "whsec_1"));
            GET_session Sample.oracle_2 "cs_test_1"]
           Sample.settled).
  simpl. left. reflexivity.
Defined.

Lemma handle_audit_extended (stripe : Stripe) (process_env : ProcessEnv)
    (r : Request) (w : World) :
  audit_extended (db w) (db (fst (run (handle stripe process_env r) w))).
Proof.
  unfold audit_extended.
  destruct r as [req | o sid | o req | o req | o req]; cbn [handle].
  - destruct (checkout_footprint stripe process_env req w)
      as (_ & _ & En & Eh & _).
    rewrite En, Eh. split; apply extends_refl.
  - apply (settle_footprint stripe process_env o (Poll sid) w).
  - apply (settle_footprint stripe process_env o (Push req) w).
  - destruct (rides_create_footprint o req w) as [E | (x & F)].
    + cbv zeta in E. rewrite E. split; apply extends_refl.
    + destruct F as (_ & _ & _ & _ & _ & _ & _ & _ & _ & _ & _ & Eh & En & _).
      rewrite Eh. split; [exact En | apply extends_refl].
  - destruct (rides_join_footprint o req w) as [E | (rid & uid & ride & F)].
    + cbv zeta in E. rewrite E. split; apply extends_refl.
    + destruct F as (_ & _ & _ & _ & _ & _ & _ & Eh & En).
      rewrite Eh. split; [exact En | apply extends_refl].
Qed.

(** The five handlers only ever append to the two audit tables: whatever
    requests are served one after the other, the notifications and the
    history entries of the store are afterwards the same rows in the same
    order, followed by the rows that were added. *)
Theorem audit_tables_append_only (stripe : Stripe) (process_env : ProcessEnv)
    (reqs : list Request) (w : World) :
  extends (notifications (db w))
          (notifications (db (serve stripe process_env reqs w)))
  /\ extends (history (db w))
             (history (db (serve stripe process_env reqs w))).
Proof.
  change (audit_extended (db w) (db (serve stripe process_env reqs w))).
  apply (serve_related stripe process_env audit_extended).
  - intros s. split; apply extends_refl.
  - intros s1 s2 s3 [N12 H12] [N23 H23].
    split; eauto using extends_trans.
  - intros r w'. apply handle_audit_extended.
Qed.

(** ** The read-model handlers *)

Lemma insert_desc_perm {A : Type} (key : A -> nat) (x : A) (l : list A) :
  Permutation (insert_desc key x l) (x :: l).
Proof.
  induction l as [| y l IH]; simpl; auto.
  destruct (key y <? key x)%nat; auto.
  rewrite IH. apply perm_swap.
Qed.

Lemma order_desc_perm {A : Type} (key : A -> nat) (l : list A) :
  Permutation (order_desc key l) l.
Proof.
  induction l as [| x l IH]; simpl; auto.
  rewrite insert_desc_perm. now constructor.
Qed.

Lemma insert_desc_sorted {A : Type} (key : A -> nat) (x : A) (l : list A) :
  sorted_desc key l -> sorted_desc key (insert_desc key x l).
Proof.
  induction l as [| y l IH]; simpl.
  - intros _. split; [constructor | exact I].
  - intros [Hall Hs]. destruct (Nat.ltb_spec (key y) (key x)) as [Hlt | Hge].
    + simpl. repeat split; auto. constructor; [lia |].
      eapply Forall_impl; [| exact Hall]. simpl. intros; lia.
    + simpl. split; [| now apply IH].
      assert (Hp := insert_desc_perm key x l).
      apply (Permutation_Forall (Permutation_sym Hp)).
      constructor; auto.
Qed.

Lemma order_desc_sorted {A : Type} (key : A -> nat) (l : list A) :
  sorted_desc key (order_desc key l).
Proof.
  induction l as [| x l IH]; simpl; auto. now apply insert_desc_sorted.
Qed.

Lemma in_firstn_in {A : Type} (n : nat) (l : list A) (x : A) :
  In x (firstn n l) -> In x l.
Proof.
  intros H. rewrite <- (firstn_skipn n l). apply in_or_app. now left.
Qed.

Lemma in_skipn_in {A : Type} (n : nat) (l : list A) (x : A) :
  In x (skipn n l) -> In x l.
Proof.
  intros H. rewrite <- (firstn_skipn n l). apply in_or_app. now right.
Qed.

Lemma sorted_desc_split {A : Type} (key : A -> nat) (n : nat) (l : list A) :
  sorted_desc key l ->
  sorted_desc key (firstn n l)
  /\ forall x y, In x (firstn n l) -> In y (skipn n l) -> key y <= key x.
Proof.
  revert n. induction l as [| a l IH]; intros n Hs.
  - rewrite firstn_nil, skipn_nil. split; [exact I | intros x y []].
  - destruct n as [| n]; simpl.
    + split; [exact I | intros x y []].
    + destruct Hs as [Hall Hs]. destruct (IH n Hs) as [Hf Hcut]. split.
      * split; auto. rewrite Forall_forall in *. intros y Hy.
        apply Hall. eapply in_firstn_in; eauto.
      * intros x y [<- | Hx] Hy.
        -- rewrite Forall_forall in Hall. apply Hall.
           eapply in_skipn_in; eauto.
        -- now apply Hcut.
Qed.

(** What [select ... order ... limit] answers, for any table, filter, key
    and limit. *)
Lemma recent_rows_spec {A : Type} (key : A -> nat) (keep : A -> bool) (n : nat)
    (table : list A) :
  let answer := limit n (order_desc key (filter keep table)) in
  List.length answer = Nat.min n (List.length (filter keep table))
  /\ sorted_desc key answer
  /\ exists omitted,
       Permutation (answer ++ omitted) (filter keep table)
       /\ forall x y, In x answer -> In y omitted -> key y <= key x.
Proof.
  cbv zeta. unfold limit.
  set (rows := order_desc key (filter keep table)).
  assert (Hperm : Permutation rows (filter keep table))
    by apply order_desc_perm.
  assert (Hsorted : sorted_desc key rows) by apply order_desc_sorted.
  destruct (sorted_desc_split key n rows Hsorted) as [Hf Hcut].
  split; [| split; [exact Hf |]].
  - rewrite length_firstn, (Permutation_length Hperm). reflexivity.
  - exists (skipn n rows). split; [| exact Hcut].
    now rewrite firstn_skipn.
Qed.

(** The notification list of a user is answered 200 and nothing is
    written.  The answer holds min(20, number of the user's notifications)
    rows, each of them a notification of that user, newest first; together
    with the rows it omits it is exactly the user's notifications, and no
    omitted row is newer than a row of the answer. *)
Theorem notifications_list_newest_twenty (created_at : Notification.row -> nat)
    (userId : uuid) (w : World) :
  let mine := filter (fun n => eq_opt_uuid userId (Notification.user_id n))
                     (notifications (db w)) in
  exists answer,
    run (notifications_list created_at userId) w
    = (w, inr (mkReadResponse 200 (json_notifications answer)))
    /\ List.length answer = Nat.min 20 (List.length mine)
    /\ (forall n, In n answer ->
                  In n (notifications (db w))
                  /\ Notification.user_id n = Some userId)
    /\ sorted_desc created_at answer
    /\ exists omitted,
         Permutation (answer ++ omitted) mine
         /\ forall x y, In x answer -> In y omitted ->
                        created_at y <= created_at x.
Proof.
  cbv zeta.
  destruct (recent_rows_spec created_at
              (fun n => eq_opt_uuid userId (Notification.user_id n)) 20
              (notifications (db w)))
    as (Hlen & Hsorted & omitted & Hperm & Hcut).
  eexists. split; [reflexivity |]. split; [exact Hlen |].
  split; [| split; [exact Hsorted | exists omitted; auto]].
  intros n Hin.
  assert (Hmine : In n (filter (fun n => eq_opt_uuid userId (Notification.user_id n))
                               (notifications (db w)))).
  { apply (Permutation_in _ Hperm). apply in_or_app. now left. }
  apply filter_In in Hmine as [Htable Hu]. split; auto.
  unfold eq_opt_uuid in Hu. destruct (Notification.user_id n) as [v |];
    [| discriminate].
  apply Nat.eqb_eq in Hu. now subst.
Qed.

(** The history of a user is answered 200 and nothing is written.  The
    answer holds min(50, number of the user's history entries) rows, each
    of them an entry of that user, newest first; together with the rows it
    omits it is exactly the user's entries, and no omitted row is newer
    than a row of the answer. *)
Theorem history_list_newest_fifty (created_at : HistoryEntry.row -> nat)
    (userId : uuid) (w : World) :
  let mine := filter (fun h => eq_opt_uuid userId (HistoryEntry.user_id h))
                     (history (db w)) in
  exists answer,
    run (history_list created_at userId) w
    = (w, inr (mkReadResponse 200 (json_history answer)))
    /\ List.length answer = Nat.min 50 (List.length mine)
    /\ (forall h, In h answer ->
                  In h (history (db w))
                  /\ HistoryEntry.user_id h = Some userId)
    /\ sorted_desc created_at answer
    /\ exists omitted,
         Permutation (answer ++ omitted) mine
         /\ forall x y, In x answer -> In y omitted ->
                        created_at y <= created_at x.
Proof.
  cbv zeta.
  destruct (recent_rows_spec created_at
              (fun h => eq_opt_uuid userId (HistoryEntry.user_id h)) 50
              (history (db w)))
    as (Hlen & Hsorted & omitted & Hperm & Hcut).
  eexists. split; [reflexivity |]. split; [exact Hlen |].
  split; [| split; [exact Hsorted | exists omitted; auto]].
  intros h Hin.
  assert (Hmine : In h (filter (fun h => eq_opt_uuid userId (HistoryEntry.user_id h))
                               (history (db w)))).
  { apply (Permutation_in _ Hperm). apply in_or_app. now left. }
  apply filter_In in Hmine as [Htable Hu]. split; auto.
  unfold eq_opt_uuid in Hu. destruct (HistoryEntry.user_id h) as [v |];
    [| discriminate].
  apply Nat.eqb_eq in Hu. now subst.
Qed.

(** Marking a notification read when no notification has the identifier is
    answered 200 with success, as any other; the world is left as it
    was. *)
Theorem mark_read_unknown_notification (notificationId : uuid) (w : World) :
  existsb (fun n => Nat.eqb (Notification.id n) notificationId)
          (notifications (db w)) = false ->
  run (notifications_read notificationId) w
  = (w, inr (mkReadResponse 200 json_success_true)).
Proof.
  intros H. unfold notifications_read, notifications_update_read.
  cbn [await_db bind try_catch run on_db fst snd].
  rewrite (map_no_match _ _ _ H).
  destruct w as [[a r p y c n h u] k]. reflexivity.
Qed.

Lemma mark_read_unknown_notification_witness :
  run (notifications_read 999) Sample.settled
  = (Sample.settled, inr (mkReadResponse 200 json_success_true)).
Proof.
  apply (mark_read_unknown_notification 999 Sample.settled). reflexivity.
Defined.

(** Marking a notification read is answered 200 with success and touches
    the read flag of that notification only: every notification keeps its
    place and its other fields, the one with the identifier is read
    afterwards, one that was read stays read, and every other table is
    left as it was.  Doing it a second time changes nothing. *)
Theorem mark_read_sets_one_flag (notificationId : uuid) (w : World) :
  let r := run (notifications_read notificationId) w in
  snd r = inr (mkReadResponse 200 json_success_true)
  /\ with_notifications (notifications (db w)) (db (fst r)) = db w
  /\ console (fst r) = console w
  /\ List.length (notifications (db (fst r)))
     = List.length (notifications (db w))
  /\ (forall i n n',
        nth_error (notifications (db w)) i = Some n ->
        nth_error (notifications (db (fst r))) i = Some n' ->
        notification_set_read n' = notification_set_read n
        /\ (Notification.id n = notificationId -> Notification.read n' = true)
        /\ (Notification.id n <> notificationId -> n' = n)
        /\ (Notification.read n = true -> Notification.read n' = true))
  /\ fst (run (notifications_read notificationId) (fst r)) = fst r.
Proof.
  cbv zeta. unfold notifications_read, notifications_update_read.
  cbn [await_db bind try_catch run on_db fst snd db console].
  split; [reflexivity |]. split; [| split; [reflexivity |]].
  { destruct w as [[a r p y c n h u] k]. reflexivity. }
  split; [cbn [notifications with_notifications]; apply length_map |].
  split.
  - intros i n n' Hn Hn'. cbn [notifications with_notifications] in Hn'.
    rewrite nth_error_map, Hn in Hn'. simpl in Hn'. injection Hn' as <-.
    destruct (Nat.eqb_spec (Notification.id n) notificationId) as [E | E].
    + repeat split; auto; contradiction.
    + repeat split; auto; contradiction.
  - cbn [notifications with_notifications]. f_equal.
    destruct w as [[a r p y c n h u] k]. unfold with_notifications. simpl.
    f_equal. rewrite map_map. apply map_ext. intros x.
    destruct (Nat.eqb (Notification.id x) notificationId) eqn:E; simpl;
      rewrite E; reflexivity.
Qed.

(** ** Two more facts about joining and settling *)

(** A join to a ride that does not exist is answered 404 "Ride not found"
    and nothing is written. *)
Theorem join_unknown_ride (o : Oracle) (rideId userId : uuid)
    (amountDue : option Z) (w : World) :
  ride_exists rideId (db w) = false ->
  run (rides_join o (JoinBody.mk (Some rideId) (Some userId) amountDue)) w
  = (w, inr (res_status 404 (json_error "Ride not found"))).
Proof.
  intros H.
  destruct (rides_select_single (Some rideId) (db w)) as [e | ride] eqn:E.
  - exact (rides_join_not_found _ _ _ _ _ _ E).
  - destruct (rides_select_single_found _ _ _ E) as (_ & _ & Hex). congruence.
Qed.

Lemma join_unknown_ride_witness :
  run (rides_join Sample.oracle_1 (JoinBody.mk (Some 7) (Some 2) None))
      Sample.created
  = (Sample.created, inr (res_status 404 (json_error "Ride not found"))).
Proof.
  apply (join_unknown_ride Sample.oracle_1 7 2 None Sample.created).
  reflexivity.
Defined.

Lemma mark_read_sets_one_flag_witness :
  let r := run (notifications_read 104) Sample.settled in
  snd r = inr (mkReadResponse 200 json_success_true)
  /\ map Notification.read (notifications (db Sample.settled))
     = [false; false; false]
  /\ map Notification.read (notifications (db (fst r))) = [false; true; false]
  /\ fst (run (notifications_read 104) (fst r)) = fst r.
Proof.
  destruct (mark_read_sets_one_flag 104 Sample.settled)
    as (Hr & _ & _ & _ & _ & Hagain).
  split; [exact Hr | split; [reflexivity | split; [reflexivity | exact Hagain]]].
Defined.
